(** * Recipe backend: validation, mutation and shopping-list aggregation

    A shallow embedding of the business logic of the [recipes] application
    (models.py, serializers.py, views.py).  Tables are lists of rows in
    storage order, the shopping list is a finite map keyed by
    (ingredient name, ingredient unit), and every operation that can raise
    returns a [result].

    Conventions.
    - A [DecimalField(decimal_places=2)] value is represented by its number
      of hundredths, an integer: 200.00 is [20000], 0.1 is [10].  Sums of
      such values are exact.
    - A Python [float] is a binary64 number ([PrimFloat.float]).
    - Timestamps ([created_at], [updated_at]) are not part of the model.
    - Primary keys of join rows come from a per-table sequence. *)

From Stdlib Require Import ZArith QArith Qabs.
From Stdlib Require PrimFloat SpecFloat FloatOps Uint63.
From stdpp Require Import base gmap list strings.

Local Open Scope Z_scope.

(** ** Exceptions and results *)

(** The messages of the [serializers.ValidationError]s raised in
    serializers.py, by the name the specification gives each of them. *)
Inductive reason :=
| MissingTags                 (* "At least one tag is required" *)
| MissingIngredients          (* "At least one ingredient is required" *)
| DuplicateIngredient         (* "Duplicate ingredients are not allowed" *)
| InvalidAmount               (* "Amount must be at least 0.1" *)
| UnknownIngredient (id : Z)  (* f"Ingredient with id {id} does not exist" *)
| UserMustBeAuthenticated.    (* "User must be authenticated" *)

Inductive exn :=
| ValidationError (why : reason)
| NotAuthenticated
| Http404
| IntegrityError
| DoesNotExist
| MultipleObjectsReturned
| KeyError
| ValueError
| TypeError
| OverflowError.

Inductive result (A : Type) :=
| Ok (a : A)
| Raise (e : exn).
Arguments Ok {A} a.
Arguments Raise {A} e.

Definition bind {A B} (m : result A) (k : A → result B) : result B :=
  match m with
  | Ok a => k a
  | Raise e => Raise e
  end.

Notation "'do' x <- m ; k" := (bind m (λ x, k))
  (at level 10, x pattern, m at level 100, k at level 200).

(** A [for] loop whose body may raise, threading the loop state. *)
Fixpoint for_each {A S} (body : S → A → result S) (l : list A) (s : S) : result S :=
  match l with
  | [] => Ok s
  | x :: l' => do s' <- body s x; for_each body l' s'
  end.

(** ** Numbers *)

(** [float(z)] for a natural number below 2^53, where the conversion is
    exact. *)
Definition float_of_int (z : Z) : PrimFloat.float :=
  PrimFloat.of_uint63 (Uint63.of_Z z).

(** [a / b] on two such numbers: Python's true division of integers, the
    binary64 quotient of the two numbers, rounded once. *)
Definition truediv (a b : Z) : PrimFloat.float :=
  PrimFloat.div (float_of_int a) (float_of_int b).

(** ** models.py *)

Record Ingredient := {
  ing_id : Z;
  ing_name : string;
  ing_unit : string
}.

Record Recipe := {
  rec_id : Z;
  rec_author : Z;
  rec_title : string;
  rec_description : string;
  rec_steps : list string;
  rec_time_minutes : Z
}.

Record RecipeIngredient := {
  ri_id : Z;
  ri_recipe : Z;
  ri_ingredient : Z;
  ri_amount : Z
}.

Record Favorite := {
  fav_id : Z;
  fav_user : Z;
  fav_recipe : Z
}.

Record Rating := {
  rt_user : Z;
  rt_recipe : Z;
  rt_value : Z
}.

#[global] Instance Recipe_eq_dec : EqDecision Recipe.
Proof. solve_decision. Defined.
#[global] Instance RecipeIngredient_eq_dec : EqDecision RecipeIngredient.
Proof. solve_decision. Defined.
#[global] Instance Favorite_eq_dec : EqDecision Favorite.
Proof. solve_decision. Defined.

(** The relational store: one list of rows per table, the many-to-many
    table behind [Recipe.tags] as (recipe, tag) pairs, and the primary-key
    sequences of the two join tables the code inserts into. *)
Record Store := {
  tbl_ingredient : list Ingredient;
  tbl_recipe : list Recipe;
  tbl_recipe_tags : list (Z * Z);
  tbl_recipe_ingredient : list RecipeIngredient;
  tbl_favorite : list Favorite;
  tbl_rating : list Rating;
  seq_recipe_ingredient : Z;
  seq_favorite : Z
}.

Definition with_recipe (st : Store) (t : list Recipe) : Store :=
  {| tbl_ingredient := tbl_ingredient st; tbl_recipe := t;
     tbl_recipe_tags := tbl_recipe_tags st;
     tbl_recipe_ingredient := tbl_recipe_ingredient st;
     tbl_favorite := tbl_favorite st; tbl_rating := tbl_rating st;
     seq_recipe_ingredient := seq_recipe_ingredient st;
     seq_favorite := seq_favorite st |}.

Definition with_recipe_tags (st : Store) (t : list (Z * Z)) : Store :=
  {| tbl_ingredient := tbl_ingredient st; tbl_recipe := tbl_recipe st;
     tbl_recipe_tags := t;
     tbl_recipe_ingredient := tbl_recipe_ingredient st;
     tbl_favorite := tbl_favorite st; tbl_rating := tbl_rating st;
     seq_recipe_ingredient := seq_recipe_ingredient st;
     seq_favorite := seq_favorite st |}.

Definition with_recipe_ingredient (st : Store) (t : list RecipeIngredient) (next : Z) : Store :=
  {| tbl_ingredient := tbl_ingredient st; tbl_recipe := tbl_recipe st;
     tbl_recipe_tags := tbl_recipe_tags st;
     tbl_recipe_ingredient := t;
     tbl_favorite := tbl_favorite st; tbl_rating := tbl_rating st;
     seq_recipe_ingredient := next;
     seq_favorite := seq_favorite st |}.

Definition with_favorite (st : Store) (t : list Favorite) (next : Z) : Store :=
  {| tbl_ingredient := tbl_ingredient st; tbl_recipe := tbl_recipe st;
     tbl_recipe_tags := tbl_recipe_tags st;
     tbl_recipe_ingredient := tbl_recipe_ingredient st;
     tbl_favorite := t; tbl_rating := tbl_rating st;
     seq_recipe_ingredient := seq_recipe_ingredient st;
     seq_favorite := next |}.

(** [Recipe.objects.filter(id=i).exists()] *)
Definition recipe_exists (st : Store) (i : Z) : bool :=
  bool_decide (Exists (λ r, rec_id r = i) (tbl_recipe st)).

(** [Ingredient.objects.filter(id=i).exists()] *)
Definition ingredient_exists (st : Store) (i : Z) : bool :=
  bool_decide (Exists (λ g, ing_id g = i) (tbl_ingredient st)).

(** [recipe_ing.ingredient]: the row the foreign key points to. *)
Definition ingredient_of (st : Store) (row : RecipeIngredient) : option Ingredient :=
  head (filter (λ g, ing_id g = ri_ingredient row) (tbl_ingredient st)).

(** [recipe.recipe_ingredients.all()] *)
Definition recipe_ingredients (st : Store) (rid : Z) : list RecipeIngredient :=
  filter (λ row, ri_recipe row = rid) (tbl_recipe_ingredient st).


(** The tag identifiers associated with a recipe. *)
Definition tags (st : Store) (rid : Z) : list Z :=
  snd <$> filter (λ p, fst p = rid) (tbl_recipe_tags st).

(** [Recipe.objects.filter(favorites__user=u)]: the join of the recipe
    table with the favorite table, one result row per matching pair. *)
Definition filter_favorites_user (u : Z) (rs : list Recipe) (favs : list Favorite)
  : list Recipe :=
  r ← rs; (λ _, r) <$> filter (λ f, fav_recipe f = rec_id r ∧ fav_user f = u) favs.

(** [Favorite.objects.filter(user=u, recipe=r)] *)
Definition favorites_of (st : Store) (u rid : Z) : list Favorite :=
  filter (λ f, fav_user f = u ∧ fav_recipe f = rid) (tbl_favorite st).

(** [RecipeIngredient.objects.create(recipe=.., ingredient_id=.., amount=..)].
    The insert is refused when a foreign key dangles or when the
    [unique_together = ('recipe', 'ingredient')] constraint is violated. *)
Definition RecipeIngredient_create (st : Store) (rid iid amount : Z) : result Store :=
  if recipe_exists st rid then
    if ingredient_exists st iid then
      if bool_decide (Exists (λ row, ri_recipe row = rid ∧ ri_ingredient row = iid)
                        (tbl_recipe_ingredient st)) then Raise IntegrityError
      else
        Ok (with_recipe_ingredient st
              (tbl_recipe_ingredient st ++
                 [{| ri_id := seq_recipe_ingredient st; ri_recipe := rid;
                     ri_ingredient := iid; ri_amount := amount |}])
              (seq_recipe_ingredient st + 1))
    else Raise IntegrityError
  else Raise IntegrityError.

(** [Favorite.objects.create(user=u, recipe=r)], with
    [unique_together = ('user', 'recipe')]. *)
Definition Favorite_create (st : Store) (u rid : Z) : result Store :=
  if recipe_exists st rid then
    if bool_decide (favorites_of st u rid = []) then
      Ok (with_favorite st
            (tbl_favorite st ++
               [{| fav_id := seq_favorite st; fav_user := u; fav_recipe := rid |}])
            (seq_favorite st + 1))
    else Raise IntegrityError
  else Raise IntegrityError.

(** [instance.save()]: the row with the instance's primary key is
    overwritten; a row is inserted when there is none. *)
Definition save (st : Store) (r : Recipe) : Store :=
  if bool_decide (Exists (λ x, rec_id x = rec_id r) (tbl_recipe st)) then
    with_recipe st ((λ x, if bool_decide (rec_id x = rec_id r) then r else x) <$> tbl_recipe st)
  else with_recipe st (tbl_recipe st ++ [r]).

(** [instance.tags.set(ts)]: associations to tags outside [ts] are removed,
    tags of [ts] not yet associated are added. *)
Definition tags_set (st : Store) (rid : Z) (ts : list Z) : Store :=
  let old := tags st rid in
  with_recipe_tags st
    (filter (λ p, fst p ≠ rid ∨ snd p ∈ ts) (tbl_recipe_tags st) ++
     ((λ t, (rid, t)) <$> filter (λ t, t ∉ old) (remove_dups ts))).

(** ** serializers.py *)

(** One entry of [ingredients_data] ([IngredientInputSerializer]); the
    amount is read with [.get('amount')], so it may be missing. *)
Record IngredientInput := {
  ingredient : Z;
  amount : option Z
}.

(** The payload of a recipe mutation: a dictionary in which every key may
    be absent. *)
Record RecipeData := {
  d_title : option string;
  d_description : option string;
  d_steps : option (list string);
  d_time_minutes : option Z;
  d_tags : option (list Z);
  d_ingredients_data : option (list IngredientInput)
}.

Module RecipeDetailSerializer.


(** [not amount or float(amount) < 0.1] on a two-decimal amount given
    in hundredths. *)
Definition bad_amount (a : option Z) : bool :=
  match a with
  | None => true
  | Some a => bool_decide (a = 0) || bool_decide (a < 10)
  end.

(** The body of the loop over [ingredients_data]. *)
Definition validate_ingredient (st : Store) (ing_data : IngredientInput) : result unit :=
  if bad_amount (amount ing_data) then Raise (ValidationError InvalidAmount)
  else if negb (ingredient_exists st (ingredient ing_data)) then
    Raise (ValidationError (UnknownIngredient (ingredient ing_data)))
  else Ok ().

Definition validate (st : Store) (data : RecipeData) : result RecipeData :=
  match default [] (d_tags data) with
  | [] => Raise (ValidationError MissingTags)
  | _ :: _ =>
    match d_ingredients_data data with
    | None | Some [] => Raise (ValidationError MissingIngredients)
    | Some ingredients_data =>
      let ingredient_ids := ingredient <$> ingredients_data in
      if bool_decide (length ingredient_ids ≠ size (list_to_set (C:=gset Z) ingredient_ids))
      then Raise (ValidationError DuplicateIngredient)
      else
        do _ <- for_each (λ _ ing_data, validate_ingredient st ing_data)
                  ingredients_data ();
        Ok data
    end
  end.

(** The loop that inserts one [RecipeIngredient] per payload entry;
    [ing_data['amount']] raises [KeyError] on a missing key. *)
Definition create_ingredients (rid : Z) (ingredients_data : list IngredientInput)
    (st : Store) : result Store :=
  for_each (λ st ing_data,
              match amount ing_data with
              | None => Raise KeyError
              | Some a => RecipeIngredient_create st rid (ingredient ing_data) a
              end) ingredients_data st.

Definition update (st : Store) (instance : Recipe) (validated_data : RecipeData)
    : result (Store * Recipe) :=
  let tags := d_tags validated_data in
  let ingredients_data := d_ingredients_data validated_data in
  let instance :=
    {| rec_id := rec_id instance;
       rec_author := rec_author instance;
       rec_title := default (rec_title instance) (d_title validated_data);
       rec_description := default (rec_description instance) (d_description validated_data);
       rec_steps := default (rec_steps instance) (d_steps validated_data);
       rec_time_minutes := default (rec_time_minutes instance) (d_time_minutes validated_data) |} in
  let st := save st instance in
  let st := match tags with
            | Some ts => tags_set st (rec_id instance) ts
            | None => st
            end in
  match ingredients_data with
  | Some ingredients_data =>
    let st := with_recipe_ingredient st
                (filter (λ row, ri_recipe row ≠ rec_id instance) (tbl_recipe_ingredient st))
                (seq_recipe_ingredient st) in
    do st <- create_ingredients (rec_id instance) ingredients_data st;
    Ok (st, instance)
  | None => Ok (st, instance)
  end.

(** [serializer.is_valid()] followed by [serializer.save()] on an
    existing instance: [validate] runs first, [update] only on what it
    returned. *)
Definition is_valid_then_save (st : Store) (instance : Recipe) (data : RecipeData)
    : result (Store * Recipe) :=
  do validated_data <- validate st data;
  update st instance validated_data.

End RecipeDetailSerializer.

(** The request, as far as the code reads it: [request.user] ([None] for an
    anonymous caller) and the two query parameters of the recipe list. *)
Record Request := {
  user : option Z;
  qp_author : option string;
  qp_favorited : option string
}.

(** The same request with another value of the [favorited] parameter. *)
Definition with_favorited (request : Request) (favorited : option string) : Request :=
  {| user := user request; qp_author := qp_author request; qp_favorited := favorited |}.

Definition is_authenticated (request : Request) : bool :=
  match user request with Some _ => true | None => false end.

Module ShoppingListSerializer.

(** [if key in ingredients: ingredients[key] += a else: ingredients[key] = a] *)
Definition add_amount (ingredients : gmap (string * string) Z)
    (key : string * string) (a : Z) : gmap (string * string) Z :=
  match ingredients !! key with
  | Some total => <[key := total + a]> ingredients
  | None => <[key := a]> ingredients
  end.

(** The body of the inner loop; following the foreign key of a row whose
    ingredient is gone raises [DoesNotExist]. *)
Definition add_row (st : Store) (ingredients : gmap (string * string) Z)
    (recipe_ing : RecipeIngredient) : result (gmap (string * string) Z) :=
  match ingredient_of st recipe_ing with
  | Some g => Ok (add_amount ingredients (ing_name g, ing_unit g) (ri_amount recipe_ing))
  | None => Raise DoesNotExist
  end.

(** The two nested loops over the selected recipes and their rows. *)
Definition aggregate (st : Store) (recipes : list Recipe)
    : result (gmap (string * string) Z) :=
  for_each (λ ingredients recipe,
              for_each (add_row st) (recipe_ingredients st (rec_id recipe)) ingredients)
           recipes ∅.

(** The recipes the aggregation runs over: [filter(id__in=recipe_ids)]
    when the list is truthy, the requester's favorites otherwise. *)
Definition selected (st : Store) (u : Z) (recipe_ids : option (list Z)) : list Recipe :=
  match recipe_ids with
  | Some ((_ :: _) as recipe_ids) => filter (λ r, rec_id r ∈ recipe_ids) (tbl_recipe st)
  | _ => filter_favorites_user u (tbl_recipe st) (tbl_favorite st)
  end.

Definition create (st : Store) (request : option Request) (recipe_ids : option (list Z))
    : result (gmap (string * string) Z) :=
  match request with
  | None => Raise (ValidationError UserMustBeAuthenticated)
  | Some request =>
    match user request with
    | None => Raise (ValidationError UserMustBeAuthenticated)
    | Some u => aggregate st (selected st u recipe_ids)
    end
  end.

End ShoppingListSerializer.

(** ** views.py *)

Inductive Data :=
| NoData
| Detail (s : string)
| Ingredients (m : gmap (string * string) Z).

Record Response := {
  data : Data;
  status : Z
}.

Module RecipeViewSet.
Section RecipeViewSet.

(** The conversion of a query-string value to an integer column value
    (Python's [int]), [None] where it raises [ValueError]. *)
Variable int : string → option Z.

Definition get_queryset (st : Store) (request : Request) : result (list Recipe) :=
  let queryset := tbl_recipe st in
  do queryset <-
    match qp_author request with
    | Some author_id =>
      if bool_decide (author_id ≠ "") then
        match int author_id with
        | Some a => Ok (filter (λ r, rec_author r = a) queryset)
        | None => Raise ValueError
        end
      else Ok queryset
    | None => Ok queryset
    end;
  match qp_favorited request, user request with
  | Some favorited, Some u =>
    if bool_decide (favorited ≠ "") then
      Ok (filter_favorites_user u queryset (tbl_favorite st))
    else Ok queryset
  | _, _ => Ok queryset
  end.

(** [self.get_object()]: the row of the queryset with primary key [pk].
    The [search] and [ordering] filter backends are not modelled. *)
Definition get_object (st : Store) (request : Request) (pk : Z) : result Recipe :=
  do queryset <- get_queryset st request;
  match filter (λ r, rec_id r = pk) queryset with
  | [] => Raise Http404
  | [recipe] => Ok recipe
  | _ => Raise MultipleObjectsReturned
  end.

(** [user = request.user] is the anonymous user for a request without
    credentials; handing it to the [user=] lookup of the Favorite table
    raises [TypeError]. *)
Definition favorite (st : Store) (request : Request) (pk : Z) : result (Store * Response) :=
  do recipe <- get_object st request pk;
  match user request with
  | None => Raise TypeError
  | Some user =>
    if bool_decide (favorites_of st user (rec_id recipe) ≠ []) then
      Ok (st, {| data := Detail "Already in favorites"; status := 400 |})
    else
      do st <- Favorite_create st user (rec_id recipe);
      Ok (st, {| data := NoData; status := 201 |})
  end.

Definition unfavorite (st : Store) (request : Request) (pk : Z) : result (Store * Response) :=
  do recipe <- get_object st request pk;
  match user request with
  | None => Raise TypeError
  | Some user =>
    match favorites_of st user (rec_id recipe) with
    | [] => Raise Http404
    | [favorite] =>
      Ok (with_favorite st (filter (λ f, fav_id f ≠ fav_id favorite) (tbl_favorite st))
            (seq_favorite st),
          {| data := NoData; status := 204 |})
    | _ => Raise MultipleObjectsReturned
    end
  end.

(** The body [{recipe_ids?: [int]}] has already passed the field
    validation, so [serializer.is_valid()] holds and [serializer.save()]
    runs [create]; what [create] raises leaves the view. *)
Definition shopping_list (st : Store) (request : Request) (recipe_ids : option (list Z))
    : result Response :=
  do ingredients <- ShoppingListSerializer.create st (Some request) recipe_ids;
  Ok {| data := Ingredients ingredients; status := 200 |}.

End RecipeViewSet.
End RecipeViewSet.

(** ** Notions used to state the properties *)

(** The (name, unit) key the aggregator files a row under. *)
Definition row_key (st : Store) (row : RecipeIngredient) : option (string * string) :=
  (λ g, (ing_name g, ing_unit g)) <$> ingredient_of st row.

(** All RecipeIngredient rows of a list of recipes, recipe by recipe. *)
Definition selected_rows (st : Store) (recipes : list Recipe) : list RecipeIngredient :=
  r ← recipes; recipe_ingredients st (rec_id r).

(** The rows filed under a given key. *)
Definition rows_with (st : Store) (key : string * string) (rows : list RecipeIngredient)
  : list RecipeIngredient :=
  filter (λ row, row_key st row = Some key) rows.

(** The sum of the amounts of a list of rows. *)
Definition total (rows : list RecipeIngredient) : Z :=
  foldr Z.add 0 (ri_amount <$> rows).

(** The entry a key has after its rows were added to a running total:
    untouched when there is no such row, else the previous total (zero when
    the key was absent) plus the sum of the rows. *)
Definition accumulated (before : option Z) (rows : list RecipeIngredient) : option Z :=
  match rows with
  | [] => before
  | _ => Some (default 0 before + total rows)
  end.

(** Referential integrity of the RecipeIngredient table: every row points
    to a stored ingredient. *)
Definition fk_integrity (st : Store) : Prop :=
  Forall (λ row, ingredient_exists st (ri_ingredient row) = true) (tbl_recipe_ingredient st).

(** [unique_together = ('user', 'recipe')] on the Favorite table. *)
Definition unique_favorites (st : Store) : Prop :=
  NoDup ((λ f, (fav_user f, fav_recipe f)) <$> tbl_favorite st).

(** The user has a Favorite row for the recipe. *)
Definition favorited_by (st : Store) (u : Z) (r : Recipe) : Prop :=
  Exists (λ f, fav_recipe f = rec_id r ∧ fav_user f = u) (tbl_favorite st).







(** The (ingredient, amount) content of a recipe's rows, in storage order. *)
Definition ingredient_amounts (st : Store) (rid : Z) : list (Z * Z) :=
  (λ row, (ri_ingredient row, ri_amount row)) <$> recipe_ingredients st rid.

(** The (ingredient, amount) pairs a payload asks for. *)
Definition payload_amounts (l : list IngredientInput) : list (Z * option Z) :=
  (λ e, (ingredient e, amount e)) <$> l.

(** The content of a list of rows as a payload would state it. *)
Definition row_amounts (rows : list RecipeIngredient) : list (Z * option Z) :=
  (λ row, (ri_ingredient row, Some (ri_amount row))) <$> rows.

(** What [RecipeIngredient.objects.create] needs of a payload entry: a
    stored ingredient and an amount. *)
Definition entry_insertable (st : Store) (e : IngredientInput) : Prop :=
  ingredient_exists st (ingredient e) = true ∧ is_Some (amount e).

(** A payload entry that passes both checks of the validation loop. *)
Definition entry_ok (st : Store) (e : IngredientInput) : Prop :=
  RecipeDetailSerializer.bad_amount (amount e) = false ∧
  ingredient_exists st (ingredient e) = true.

(** ** A sample store

    Four ingredient records (the last one repeats the name and unit of the
    first), three recipes, favorites of user 7 and ratings of recipe 1. *)

Definition flour := {| ing_id := 1; ing_name := "flour"; ing_unit := "g" |}.
Definition sugar := {| ing_id := 2; ing_name := "sugar"; ing_unit := "g" |}.
Definition egg := {| ing_id := 3; ing_name := "egg"; ing_unit := "pcs" |}.
Definition flour' := {| ing_id := 4; ing_name := "flour"; ing_unit := "g" |}.

Definition R1 := {| rec_id := 1; rec_author := 7; rec_title := "Cake";
                    rec_description := "A cake"; rec_steps := ["mix"; "bake"];
                    rec_time_minutes := 60 |}.
Definition R2 := {| rec_id := 2; rec_author := 8; rec_title := "Pancakes";
                    rec_description := "Thin ones"; rec_steps := ["mix"; "fry"];
                    rec_time_minutes := 20 |}.
Definition R3 := {| rec_id := 3; rec_author := 8; rec_title := "Crepes";
                    rec_description := "Thinner ones"; rec_steps := ["mix"; "fry"];
                    rec_time_minutes := 25 |}.

Definition sample : Store :=
  {| tbl_ingredient := [flour; sugar; egg; flour'];
     tbl_recipe := [R1; R2; R3];
     tbl_recipe_tags := [(1, 1); (2, 1); (3, 2)];
     tbl_recipe_ingredient :=
       [ {| ri_id := 1; ri_recipe := 1; ri_ingredient := 1; ri_amount := 20000 |};
         {| ri_id := 2; ri_recipe := 1; ri_ingredient := 2; ri_amount := 5000 |};
         {| ri_id := 3; ri_recipe := 2; ri_ingredient := 1; ri_amount := 30000 |};
         {| ri_id := 4; ri_recipe := 2; ri_ingredient := 3; ri_amount := 200 |};
         {| ri_id := 5; ri_recipe := 3; ri_ingredient := 4; ri_amount := 30000 |};
         {| ri_id := 6; ri_recipe := 3; ri_ingredient := 3; ri_amount := 200 |} ];
     tbl_favorite :=
       [ {| fav_id := 1; fav_user := 7; fav_recipe := 1 |};
         {| fav_id := 2; fav_user := 7; fav_recipe := 2 |};
         {| fav_id := 3; fav_user := 8; fav_recipe := 3 |} ];
     tbl_rating :=
       [ {| rt_user := 7; rt_recipe := 1; rt_value := 3 |};
         {| rt_user := 8; rt_recipe := 1; rt_value := 5 |} ];
     seq_recipe_ingredient := 7;
     seq_favorite := 4 |}.


Definition anonymous : Request :=
  {| user := None; qp_author := None; qp_favorited := None |}.

Definition as_user (u : Z) : Request :=
  {| user := Some u; qp_author := None; qp_favorited := None |}.

Definition no_data : RecipeData :=
  {| d_title := None; d_description := None; d_steps := None;
     d_time_minutes := None; d_tags := None; d_ingredients_data := None |}.

(** A payload with one tag whose first entry names an ingredient that is
    not stored (with a fine amount, 1.00) and whose second entry has too
    small an amount (0.05) of a stored ingredient. *)
Definition unknown_then_small : RecipeData :=
  {| d_title := None; d_description := None; d_steps := None;
     d_time_minutes := None; d_tags := Some [1];
     d_ingredients_data :=
       Some [ {| ingredient := 999; amount := Some 100 |};
              {| ingredient := 1; amount := Some 5 |} ] |}.

(** A full update of the ingredients: egg 3 pcs and flour 0.50 g. *)
Definition egg_and_flour : RecipeData :=
  {| d_title := None; d_description := None; d_steps := None;
     d_time_minutes := None; d_tags := Some [1];
     d_ingredients_data :=
       Some [ {| ingredient := 3; amount := Some 300 |};
              {| ingredient := 1; amount := Some 50 |} ] |}.

(** A partial update that only renames the recipe. *)
Definition title_only : RecipeData :=
  {| d_title := Some "Sponge cake"; d_description := None; d_steps := None;
     d_time_minutes := None; d_tags := None; d_ingredients_data := None |}.

(** The shopping list {flour: 500 g, sugar: 50 g, egg: 2 pcs}. *)
Definition flour_sugar_egg : gmap (string * string) Z :=
  {[ ("flour", "g") := 50000; ("sugar", "g") := 5000; ("egg", "pcs") := 200 ]}.

(** * The rest of the application *)

(** ** permissions.py and the permission classes the views name *)

Inductive Permission :=
| AllowAny
| IsAuthenticated
| IsAuthorOrReadOnly.

(** [has_permission]: [IsAuthenticated] wants an authenticated user;
    [IsAuthorOrReadOnly] does not override the method, which then allows. *)
Definition has_permission (p : Permission) (request : Request) : bool :=
  match p with
  | IsAuthenticated => is_authenticated request
  | AllowAny | IsAuthorOrReadOnly => true
  end.

(** [has_object_permission] on an object whose [author] has the given key;
    [method] is [request.method]. *)
Definition has_object_permission (p : Permission) (method : string) (request : Request)
    (author : Z) : bool :=
  match p with
  | IsAuthorOrReadOnly =>
    if bool_decide (method ∈ ["GET"; "HEAD"; "OPTIONS"]) then true
    else bool_decide (user request = Some author)
  | AllowAny | IsAuthenticated => true
  end.

(** [check_permissions] and [check_object_permissions]: every permission of
    the list has to allow. *)
Definition check_permissions (permissions : list Permission) (request : Request) : bool :=
  forallb (λ p, has_permission p request) permissions.

Definition check_object_permissions (permissions : list Permission) (method : string)
    (request : Request) (author : Z) : bool :=
  forallb (λ p, has_object_permission p method request author) permissions.

(** [TagViewSet.get_permissions]; [super().get_permissions()] instantiates
    [permission_classes = [AllowAny]]. *)
Definition TagViewSet_get_permissions (action : string) : list Permission :=
  if bool_decide (action ∈ ["create"; "update"; "partial_update"; "destroy"])
  then [IsAuthenticated] else [AllowAny].

(** [IngredientViewSet.get_permissions] *)
Definition IngredientViewSet_get_permissions (action : string) : list Permission :=
  if bool_decide (action ∈ ["create"; "update"; "partial_update"; "destroy"])
  then [IsAuthenticated] else [AllowAny].

(** [RecipeViewSet.get_permissions].  The method does not read
    [self.permission_classes], so the classes passed to [@action] for
    [favorite], [rating] and [shopping_list] play no part in it. *)
Definition RecipeViewSet_get_permissions (action : string) : list Permission :=
  if bool_decide (action ∈ ["create"]) then [IsAuthenticated]
  else if bool_decide (action ∈ ["update"; "partial_update"; "destroy"])
  then [IsAuthorOrReadOnly]
  else [AllowAny].

(** [CommentViewSet.get_permissions] *)
Definition CommentViewSet_get_permissions (action : string) : list Permission :=
  if bool_decide (action ∈ ["create"]) then [IsAuthenticated]
  else if bool_decide (action ∈ ["update"; "partial_update"; "destroy"])
  then [IsAuthorOrReadOnly]
  else [AllowAny].

(** Rendering the data of a response as JSON.  The keys of a shopping
    list are (name, unit) tuples, which [json.dumps] refuses with
    [TypeError] at the first entry; an empty mapping, a detail and an empty
    body render. *)
Definition render (response : Response) : result Response :=
  match data response with
  | Ingredients m => if bool_decide (m = ∅) then Ok response else Raise TypeError
  | NoData | Detail _ => Ok response
  end.

(** The [shopping_list] route as it is dispatched: the permissions of
    [get_permissions] are checked, the action runs, and the response it
    returns is rendered. *)
Definition dispatch_shopping_list (st : Store) (request : Request)
    (recipe_ids : option (list Z)) : result Response :=
  if check_permissions (RecipeViewSet_get_permissions "shopping_list") request then
    do response <- RecipeViewSet.shopping_list st request recipe_ids;
    render response
  else Raise NotAuthenticated.

(** ** More of serializers.py *)

(** [get_is_favorited], the same in the list and the detail serializer. *)
Definition get_is_favorited (st : Store) (request : option Request) (obj : Recipe) : bool :=
  match request with
  | Some request =>
    match user request with
    | Some u => bool_decide (favorites_of st u (rec_id obj) ≠ [])
    | None => false
    end
  | None => false
  end.

(** [Recipe.objects.create] on the validated data, with the author that
    [perform_create] passes to [save].  [pk] is the key the database
    assigns.  Absent text fields take the empty default of their column,
    absent steps the empty list; a missing [time_minutes] violates NOT NULL,
    a key in use the primary-key constraint. *)
Definition Recipe_create (st : Store) (pk author : Z) (validated_data : RecipeData)
    : result (Store * Recipe) :=
  match d_time_minutes validated_data with
  | None => Raise IntegrityError
  | Some time_minutes =>
    if recipe_exists st pk then Raise IntegrityError
    else
      let recipe :=
        {| rec_id := pk; rec_author := author;
           rec_title := default "" (d_title validated_data);
           rec_description := default "" (d_description validated_data);
           rec_steps := default [] (d_steps validated_data);
           rec_time_minutes := time_minutes |} in
      Ok (with_recipe st (tbl_recipe st ++ [recipe]), recipe)
  end.

(** [RecipeDetailSerializer.create] *)
Definition RecipeDetailSerializer_create (st : Store) (pk author : Z)
    (validated_data : RecipeData) : result (Store * Recipe) :=
  let tags := default [] (d_tags validated_data) in
  let ingredients_data := default [] (d_ingredients_data validated_data) in
  do created <- Recipe_create st pk author validated_data;
  let st := fst created in
  let recipe := snd created in
  let st := match tags with
            | [] => st
            | _ :: _ => tags_set st (rec_id recipe) tags
            end in
  do st <- RecipeDetailSerializer.create_ingredients (rec_id recipe) ingredients_data st;
  Ok (st, recipe).

(** [serializer.is_valid()] followed by [serializer.save(author=...)]
    without an instance. *)
Definition is_valid_then_create (st : Store) (pk author : Z) (data : RecipeData)
    : result (Store * Recipe) :=
  do validated_data <- RecipeDetailSerializer.validate st data;
  RecipeDetailSerializer_create st pk author validated_data.

(** ** More of views.py: the rating action *)

Inductive RatingMethod := POST | DELETE.

(** What the rating action answers: the refusal with its detail, the
    serialized rating (its value), or no content; each with the status. *)
Inductive RatingResponse :=
| RatingRefused (detail : string) (status : Z)
| RatingSaved (value : Z) (status : Z)
| RatingDeleted (status : Z).

Definition with_rating (st : Store) (t : list Rating) : Store :=
  {| tbl_ingredient := tbl_ingredient st; tbl_recipe := tbl_recipe st;
     tbl_recipe_tags := tbl_recipe_tags st;
     tbl_recipe_ingredient := tbl_recipe_ingredient st;
     tbl_favorite := tbl_favorite st; tbl_rating := t;
     seq_recipe_ingredient := seq_recipe_ingredient st;
     seq_favorite := seq_favorite st |}.

(** [Rating.objects.filter(user=u, recipe=r)] *)
Definition ratings_of (st : Store) (u rid : Z) : list Rating :=
  filter (λ r, rt_user r = u ∧ rt_recipe r = rid) (tbl_rating st).

(** A value of the request body as the parser delivers it: [None] for a
    missing key or a JSON null, a boolean, an integer, a float, a string,
    or a list or an object, of which only the emptiness matters here. *)
Inductive Value :=
| VNone
| VBool (b : bool)
| VInt (z : Z)
| VFloat (x : PrimFloat.float)
| VStr (s : string)
| VContainer (empty : bool).

(** The truth value of a value: [not value] is its negation.  A float is
    false when it equals zero, which NaN does not. *)
Definition truthy (value : Value) : bool :=
  match value with
  | VNone => false
  | VBool b => b
  | VInt z => bool_decide (z ≠ 0)
  | VFloat x => negb (PrimFloat.eqb x PrimFloat.zero)
  | VStr s => bool_decide (s ≠ "")
  | VContainer empty => negb empty
  end.

(** [int(value)]: a float is truncated towards zero, a string is parsed by
    [int], which raises [ValueError] where the string is no integer;
    [None], lists and objects raise [TypeError]. *)
Definition to_int (int : string → option Z) (value : Value) : result Z :=
  match value with
  | VNone => Raise TypeError
  | VBool b => Ok (if b then 1 else 0)
  | VInt z => Ok z
  | VFloat x =>
    match FloatOps.Prim2SF x with
    | SpecFloat.S754_zero _ => Ok 0
    | SpecFloat.S754_finite s m e =>
      let magnitude := Z.shiftl (Z.pos m) e in
      Ok (if s then - magnitude else magnitude)
    | SpecFloat.S754_infinity _ => Raise OverflowError
    | SpecFloat.S754_nan => Raise ValueError
    end
  | VStr s =>
    match int s with
    | Some z => Ok z
    | None => Raise ValueError
    end
  | VContainer _ => Raise TypeError
  end.

(** [RecipeViewSet.rating]; [value] is [request.data.get('value')].
    [user = request.user] is the anonymous user for a request without
    credentials; handing it to the [user=] lookup of the Rating table
    raises [TypeError]. *)
Definition RecipeViewSet_rating (int : string → option Z) (st : Store) (request : Request)
    (method : RatingMethod) (pk : Z) (value : Value)
    : result (Store * RatingResponse) :=
  do recipe <- RecipeViewSet.get_object int st request pk;
  match method with
  | POST =>
    if negb (truthy value) then
      Ok (st, RatingRefused "Value must be between 1 and 5" 400)
    else
      do n <- to_int int value;
      if bool_decide (n < 1) || bool_decide (n > 5) then
        Ok (st, RatingRefused "Value must be between 1 and 5" 400)
      else
        match user request with
        | None => Raise TypeError
        | Some u =>
          match ratings_of st u (rec_id recipe) with
          | [] =>
            Ok (with_rating st
                  (tbl_rating st ++
                     [{| rt_user := u; rt_recipe := rec_id recipe; rt_value := n |}]),
                RatingSaved n 201)
          | [_] =>
            Ok (with_rating st
                  ((λ r, if bool_decide (rt_user r = u ∧ rt_recipe r = rec_id recipe)
                         then {| rt_user := u; rt_recipe := rec_id recipe; rt_value := n |}
                         else r) <$> tbl_rating st),
                RatingSaved n 201)
          | _ => Raise MultipleObjectsReturned
          end
        end
  | DELETE =>
    match user request with
    | None => Raise TypeError
    | Some u =>
      match ratings_of st u (rec_id recipe) with
      | [] => Raise Http404
      | [_] =>
        Ok (with_rating st
              (filter (λ r, ¬ (rt_user r = u ∧ rt_recipe r = rec_id recipe)) (tbl_rating st)),
            RatingDeleted 204)
      | _ => Raise MultipleObjectsReturned
      end
    end
  end.

(** The floats 5.5 and 3.7 of a JSON body. *)
Definition five_and_a_half : Value := VFloat (truediv 11 2).
Definition three_point_seven : Value := VFloat (truediv 37 10).

(** ** Further notions *)

(** [unique_together = ('user', 'recipe')] on the Rating table. *)
Definition unique_ratings (st : Store) : Prop :=
  NoDup ((λ r, (rt_user r, rt_recipe r)) <$> tbl_rating st).

(** The validators of [Rating.value]. *)
Definition ratings_in_range (st : Store) : Prop :=
  Forall (λ r, 1 ≤ rt_value r ≤ 5) (tbl_rating st).

(** The validator of [RecipeIngredient.amount]: at least 0.1. *)
Definition amounts_in_range (st : Store) : Prop :=
  Forall (λ row, 10 ≤ ri_amount row) (tbl_recipe_ingredient st).

(** Every RecipeIngredient row and every tag association belongs to a
    stored recipe. *)
Definition recipe_integrity (st : Store) : Prop :=
  Forall (λ row, recipe_exists st (ri_recipe row) = true) (tbl_recipe_ingredient st) ∧
  Forall (λ p, recipe_exists st (fst p) = true) (tbl_recipe_tags st).

(** A complete creation payload: Cake 2, one tag, egg 3 pcs and flour 0.50 g. *)
Definition new_cake : RecipeData :=
  {| d_title := Some "Cake 2"; d_description := Some "Another cake";
     d_steps := Some ["mix"]; d_time_minutes := Some 45; d_tags := Some [2; 1];
     d_ingredients_data :=
       Some [ {| ingredient := 3; amount := Some 300 |};
              {| ingredient := 1; amount := Some 50 |} ] |}.

(** * Properties *)

(** ** Loops and lookups *)

Lemma bind_Ok {A B} (m : result A) (k : A → result B) (b : B) :
  bind m k = Ok b ↔ ∃ a, m = Ok a ∧ k a = Ok b.
Proof.
  destruct m as [a|e]; simpl; split.
  - eauto.
  - by intros (a' & [= <-] & Hk).
  - discriminate.
  - by intros (a' & [=] & _).
Qed.

Lemma for_each_app {A S} (body : S → A → result S) (l1 l2 : list A) (s : S) :
  for_each body (l1 ++ l2) s = bind (for_each body l1 s) (for_each body l2).
Proof.
  revert s. induction l1 as [|x l1 IH]; intros s; simpl; [done|].
  destruct (body s x) as [s'|e]; simpl; [apply IH | done].
Qed.

(** A loop nest over a list of lists is one loop over their concatenation. *)
Lemma for_each_nested {A B S} (body : S → B → result S) (inner : A → list B)
    (l : list A) (s : S) :
  for_each (λ s x, for_each body (inner x) s) l s = for_each body (x ← l; inner x) s.
Proof.
  revert s. induction l as [|x l IH]; intros s; simpl; [done|].
  rewrite for_each_app. destruct (for_each body (inner x) s); simpl; [apply IH | done].
Qed.

Lemma ingredient_of_exists (st : Store) (row : RecipeIngredient) :
  ingredient_exists st (ri_ingredient row) = true → is_Some (ingredient_of st row).
Proof.
  unfold ingredient_exists, ingredient_of. intros H%bool_decide_eq_true.
  induction H as [g l Hg | g l _ IH].
  - rewrite filter_cons_True by done. by eexists.
  - rewrite filter_cons. destruct (decide _); [by eexists | apply IH].
Qed.

Lemma selected_rows_stored (st : Store) (recipes : list Recipe) (row : RecipeIngredient) :
  row ∈ selected_rows st recipes → row ∈ tbl_recipe_ingredient st.
Proof.
  unfold selected_rows. intros (r & Hrow & _)%list_elem_of_bind.
  unfold recipe_ingredients in Hrow. by apply list_elem_of_filter in Hrow as [_ ?].
Qed.

(** ** Shopping list *)

Section aggregation.
Import ShoppingListSerializer.
Variable st : Store.

Lemma add_amount_lookup (m : gmap (string * string) Z) (key k : string * string) (a : Z) :
  add_amount m key a !! k =
    if decide (key = k) then Some (default 0 (m !! key) + a) else m !! k.
Proof.
  unfold add_amount. destruct (m !! key) as [t|] eqn:E; simpl;
    rewrite lookup_insert; by destruct (decide (key = k)).
Qed.

Lemma add_rows_lookup (rows : list RecipeIngredient) (m : gmap (string * string) Z) :
  Forall (λ row, is_Some (ingredient_of st row)) rows →
  ∃ m', for_each (add_row st) rows m = Ok m' ∧
        ∀ k, m' !! k = accumulated (m !! k) (rows_with st k rows).
Proof.
  intros Hrows. revert m.
  induction Hrows as [|row rows [g Hg] _ IH]; intros m; cbn [for_each].
  { by exists m. }
  destruct (IH (add_amount m (ing_name g, ing_unit g) (ri_amount row)))
    as (m' & Hloop & Hm').
  exists m'. split; [unfold add_row at 1; by rewrite Hg|]. intros k.
  rewrite Hm', add_amount_lookup.
  assert (row_key st row = Some (ing_name g, ing_unit g)) as Hkey
    by (unfold row_key; by rewrite Hg).
  unfold rows_with.
  destruct (decide ((ing_name g, ing_unit g) = k)) as [<-|Hne].
  - rewrite filter_cons_True by done.
    destruct (filter _ rows) as [|row' rows']; simpl; f_equal; unfold total; simpl; lia.
  - rewrite filter_cons_False by congruence. done.
Qed.

Lemma aggregate_lookup (recipes : list Recipe) :
  fk_integrity st →
  ∃ m, aggregate st recipes = Ok m ∧
       ∀ k, m !! k = accumulated None (rows_with st k (selected_rows st recipes)).
Proof.
  intros Hfk. unfold aggregate. rewrite for_each_nested.
  destruct (add_rows_lookup (selected_rows st recipes) ∅) as (m & Hm & Hk).
  - apply Forall_forall. intros row Hrow%selected_rows_stored.
    apply ingredient_of_exists. unfold fk_integrity in Hfk.
    rewrite Forall_forall in Hfk. by apply Hfk.
  - exists m. split; [done|]. intros k. by rewrite Hk, lookup_empty.
Qed.

End aggregation.

(** C1. The shopping-list aggregator returns a mapping with exactly one
    entry per (ingredient name, ingredient unit) pair occurring among the
    RecipeIngredient rows of the selected recipes, and the value of an entry
    is the exact sum of the amounts of all rows with that name and unit,
    whichever Ingredient record they point to.  For R1 (flour 200 g, sugar
    50 g) and R2 (flour 300 g, egg 2 pcs) the result is
    {flour: 500 g, sugar: 50 g, egg: 2 pcs}, also when the flour of the
    second recipe is another Ingredient record with the same name and unit. *)
Theorem shopping_list_totals :
  (∀ (st : Store) (request : Request) (u : Z) (recipe_ids : option (list Z)),
     user request = Some u →
     fk_integrity st →
     ∃ m, ShoppingListSerializer.create st (Some request) recipe_ids = Ok m ∧
          ∀ name unit,
            m !! (name, unit) =
              match rows_with st (name, unit)
                      (selected_rows st (ShoppingListSerializer.selected st u recipe_ids)) with
              | [] => None
              | rows => Some (total rows)
              end)
  ∧ ShoppingListSerializer.create sample (Some (as_user 7)) (Some [1; 2]) = Ok flour_sugar_egg
  ∧ ShoppingListSerializer.create sample (Some (as_user 7)) (Some [1; 3]) = Ok flour_sugar_egg.
Proof.
  split; [|split; by vm_compute].
  intros st request u recipe_ids Hu Hfk.
  unfold ShoppingListSerializer.create. rewrite Hu.
  destruct (aggregate_lookup st (ShoppingListSerializer.selected st u recipe_ids) Hfk)
    as (m & Hm & Hk).
  exists m. split; [done|]. intros name unit. rewrite Hk. unfold accumulated.
  by destruct (rows_with _ _ _).
Qed.

Lemma sample_fk_integrity : fk_integrity sample.
Proof. unfold fk_integrity. by repeat constructor. Qed.

Lemma shopping_list_totals_witness :
  user (as_user 7) = Some 7 ∧ fk_integrity sample ∧
  ∃ m, ShoppingListSerializer.create sample (Some (as_user 7)) (Some [1; 2]) = Ok m ∧
       ∀ name unit,
         m !! (name, unit) =
           match rows_with sample (name, unit)
                   (selected_rows sample (ShoppingListSerializer.selected sample 7 (Some [1; 2]))) with
           | [] => None
           | rows => Some (total rows)
           end.
Proof.
  split; [reflexivity|]. split; [apply sample_fk_integrity|].
  apply (proj1 shopping_list_totals sample (as_user 7) 7 (Some [1; 2]));
    [reflexivity | apply sample_fk_integrity].
Defined.




Lemma filter_favorites_user_elem (u : Z) (rs : list Recipe) (favs : list Favorite) (r : Recipe) :
  r ∈ filter_favorites_user u rs favs ↔
  r ∈ rs ∧ Exists (λ f, fav_recipe f = rec_id r ∧ fav_user f = u) favs.
Proof.
  unfold filter_favorites_user. rewrite list_elem_of_bind. split.
  - intros (r' & (f & -> & Hf)%list_elem_of_fmap & Hr').
    apply list_elem_of_filter in Hf as [Hf Hin].
    split; [done|]. apply Exists_exists. eauto.
  - intros [Hr (f & Hin & Hf)%Exists_exists]. exists r. split; [|done].
    apply list_elem_of_fmap. exists f. split; [done|].
    by apply list_elem_of_filter.
Qed.

Lemma filter_none {A} (P : A → Prop) `{∀ x, Decision (P x)} (l : list A) :
  (∀ x, x ∈ l → ¬ P x) → filter P l = [].
Proof.
  induction l as [|x l IH]; [done|]. intros Hl.
  rewrite filter_cons_False by (apply Hl; left).
  apply IH. intros y Hy. apply Hl. by right.
Qed.

Lemma filter_unique {A B} `{EqDecision B} (f : A → B) (c : B) (l : list A) :
  NoDup (f <$> l) → (length (filter (λ x, f x = c) l) ≤ 1)%nat.
Proof.
  induction l as [|x l IH]; simpl; [lia|].
  intros [Hx Hl]%NoDup_cons. rewrite filter_cons.
  destruct (decide (f x = c)) as [<-|]; [|by apply IH].
  assert (filter (λ y, f y = f x) l = []) as ->; [|simpl; lia].
  apply filter_none. intros y Hy Heq. apply Hx.
  rewrite <- Heq. by apply list_elem_of_fmap_2.
Qed.

(** Under the uniqueness constraint of the Favorite table the join yields
    every favorited recipe once. *)
Lemma filter_favorites_user_unique (st : Store) (u : Z) (rs : list Recipe) :
  unique_favorites st →
  filter_favorites_user u rs (tbl_favorite st) = filter (favorited_by st u) rs.
Proof.
  intros Huniq. unfold filter_favorites_user.
  induction rs as [|r rs IH]; [done|].
  rewrite bind_cons, IH, filter_cons.
  pose proof (filter_unique (λ f, (fav_user f, fav_recipe f)) (u, rec_id r)
                (tbl_favorite st) Huniq) as Hlen.
  assert (filter (λ f, fav_recipe f = rec_id r ∧ fav_user f = u) (tbl_favorite st) =
          filter (λ f, (fav_user f, fav_recipe f) = (u, rec_id r)) (tbl_favorite st)) as Heq.
  { apply list_filter_iff. intros f. split; [by intros [-> ->] | by intros [= -> ->]]. }
  rewrite Heq.
  destruct (filter _ (tbl_favorite st)) as [|f [|f' fs]] eqn:E; simpl in Hlen; [| |lia].
  - rewrite decide_False; [done|]. unfold favorited_by.
    intros (f & Hin & Hf)%Exists_exists.
    assert (f ∈ filter (λ f, (fav_user f, fav_recipe f) = (u, rec_id r)) (tbl_favorite st)) as Hf'.
    { apply list_elem_of_filter. split; [by destruct Hf as [-> ->] | done]. }
    rewrite E in Hf'. by apply elem_of_nil in Hf'.
  - rewrite decide_True; [done|]. unfold favorited_by. apply Exists_exists.
    assert (f ∈ filter (λ f, (fav_user f, fav_recipe f) = (u, rec_id r)) (tbl_favorite st)) as Hf'
      by (rewrite E; left).
    apply list_elem_of_filter in Hf' as [[= Hu Hr] Hin]. eauto.
Qed.

(** C7. When the list of recipe identifiers is absent or empty, the
    aggregation runs over exactly the recipes the requesting user has
    favorited, and the action returns a response of status 200 that carries
    the mapping it yields.  A shopping-list request of an unauthenticated
    caller fails: the action reaches the serializer, which raises the
    validation error "User must be authenticated", as it does when it is
    given no request. *)
Theorem shopping_list_defaults_to_favorites :
  (∀ (st : Store) (request : Request) (u : Z) (recipe_ids : option (list Z)),
     user request = Some u →
     recipe_ids = None ∨ recipe_ids = Some [] →
     let recipes := filter_favorites_user u (tbl_recipe st) (tbl_favorite st) in
     ShoppingListSerializer.create st (Some request) recipe_ids =
       ShoppingListSerializer.aggregate st recipes ∧
     (∀ r, r ∈ recipes ↔ r ∈ tbl_recipe st ∧ favorited_by st u r) ∧
     (unique_favorites st → recipes = filter (favorited_by st u) (tbl_recipe st)) ∧
     RecipeViewSet.shopping_list st request recipe_ids =
       (do ingredients <- ShoppingListSerializer.aggregate st recipes;
        Ok {| data := Ingredients ingredients; status := 200 |}) ∧
     (fk_integrity st →
      ∃ ingredients,
        ShoppingListSerializer.aggregate st recipes = Ok ingredients ∧
        RecipeViewSet.shopping_list st request recipe_ids =
          Ok {| data := Ingredients ingredients; status := 200 |}))
  ∧ (∀ (st : Store) (request : Request) (recipe_ids : option (list Z)),
       user request = None →
       RecipeViewSet.shopping_list st request recipe_ids =
         Raise (ValidationError UserMustBeAuthenticated) ∧
       ShoppingListSerializer.create st (Some request) recipe_ids =
         Raise (ValidationError UserMustBeAuthenticated))
  ∧ (∀ (st : Store) (recipe_ids : option (list Z)),
       ShoppingListSerializer.create st None recipe_ids =
         Raise (ValidationError UserMustBeAuthenticated)).
Proof.
  split; [|split].
  - intros st request u recipe_ids Hu Hids recipes.
    assert (ShoppingListSerializer.create st (Some request) recipe_ids =
            ShoppingListSerializer.aggregate st recipes) as Hcreate.
    { unfold ShoppingListSerializer.create. rewrite Hu. by destruct Hids as [-> | ->]. }
    split; [done|]. split; [|split; [|split]].
    + intros r. apply filter_favorites_user_elem.
    + apply filter_favorites_user_unique.
    + unfold RecipeViewSet.shopping_list. by rewrite Hcreate.
    + intros Hfk. destruct (aggregate_lookup st recipes Hfk) as (m & Hm & _).
      exists m. split; [done|].
      unfold RecipeViewSet.shopping_list. by rewrite Hcreate, Hm.
  - intros st request recipe_ids Hu.
    unfold RecipeViewSet.shopping_list, ShoppingListSerializer.create. by rewrite Hu.
  - done.
Qed.

Lemma sample_unique_favorites : unique_favorites sample.
Proof. unfold unique_favorites. apply (bool_decide_unpack _). by vm_compute. Qed.

Lemma shopping_list_defaults_to_favorites_witness :
  user (as_user 7) = Some 7 ∧ unique_favorites sample ∧ fk_integrity sample ∧
  user anonymous = None ∧
  ShoppingListSerializer.create sample (Some (as_user 7)) (Some []) =
    ShoppingListSerializer.aggregate sample [R1; R2] ∧
  filter_favorites_user 7 (tbl_recipe sample) (tbl_favorite sample) =
    filter (favorited_by sample 7) (tbl_recipe sample) ∧
  (∃ ingredients,
     ShoppingListSerializer.aggregate sample [R1; R2] = Ok ingredients ∧
     RecipeViewSet.shopping_list sample (as_user 7) (Some []) =
       Ok {| data := Ingredients ingredients; status := 200 |}) ∧
  RecipeViewSet.shopping_list sample anonymous None =
    Raise (ValidationError UserMustBeAuthenticated).
Proof.
  split; [reflexivity|]. split; [apply sample_unique_favorites|].
  split; [apply sample_fk_integrity|]. split; [reflexivity|].
  split; [|split; [|split]].
  - apply (proj1 shopping_list_defaults_to_favorites sample (as_user 7) 7 (Some []));
      [reflexivity | by right].
  - apply (proj1 shopping_list_defaults_to_favorites sample (as_user 7) 7 (Some []));
      [reflexivity | by right | apply sample_unique_favorites].
  - apply (proj1 shopping_list_defaults_to_favorites sample (as_user 7) 7 (Some []));
      [reflexivity | by right | apply sample_fk_integrity].
  - apply (proj1 (proj2 shopping_list_defaults_to_favorites) sample anonymous None).
    reflexivity.
Defined.

Lemma filter_ext_in {A} (P Q : A → Prop) `{∀ x, Decision (P x)} `{∀ x, Decision (Q x)}
    (l : list A) :
  (∀ x, x ∈ l → (P x ↔ Q x)) → filter P l = filter Q l.
Proof.
  induction l as [|x l IH]; [done|]. intros Hl.
  rewrite !filter_cons, IH by (intros y Hy; apply Hl; by right).
  destruct (decide (P x)) as [HP|HP], (decide (Q x)) as [HQ|HQ]; try done;
    exfalso; apply (Hl x) in HP || apply (Hl x) in HQ; try done; left.
Qed.

Lemma recipe_exists_stored (st : Store) (r : Recipe) :
  r ∈ tbl_recipe st → recipe_exists st (rec_id r) = true.
Proof.
  intros Hr. apply bool_decide_eq_true, Exists_exists. eauto.
Qed.

(** C9. Identifiers of a non-empty request list that match no stored recipe
    raise nothing: they are ignored, the result is the aggregation over the
    identifiers that do exist, and the empty mapping when none exists. *)
Theorem shopping_list_unknown_ids :
  (∀ (st : Store) (request : Request) (u : Z) (recipe_ids : list Z),
     user request = Some u →
     recipe_ids ≠ [] →
     let existing := filter (λ i, recipe_exists st i) recipe_ids in
     ShoppingListSerializer.create st (Some request) (Some recipe_ids) =
       ShoppingListSerializer.aggregate st
         (filter (λ r, rec_id r ∈ existing) (tbl_recipe st)) ∧
     (fk_integrity st →
      ∃ m, ShoppingListSerializer.create st (Some request) (Some recipe_ids) = Ok m) ∧
     (existing = [] →
      ShoppingListSerializer.create st (Some request) (Some recipe_ids) = Ok ∅))
  ∧ ShoppingListSerializer.create sample (Some (as_user 7)) (Some [999; 1; 2; 1000]) =
    Ok flour_sugar_egg
  ∧ ShoppingListSerializer.create sample (Some (as_user 7)) (Some [999; 1000]) = Ok ∅.
Proof.
  split; [|split; by vm_compute].
  intros st request u recipe_ids Hu Hne existing.
  assert (ShoppingListSerializer.create st (Some request) (Some recipe_ids) =
          ShoppingListSerializer.aggregate st
            (filter (λ r, rec_id r ∈ existing) (tbl_recipe st))) as Hcreate.
  { unfold ShoppingListSerializer.create. rewrite Hu. f_equal.
    destruct recipe_ids as [|i ids]; [done|]. simpl.
    apply filter_ext_in. intros r Hr. unfold existing.
    rewrite list_elem_of_filter, (recipe_exists_stored st r Hr).
    split; [by intros ? | by intros [_ ?]]. }
  split; [done|]. split.
  - intros Hfk. rewrite Hcreate.
    destruct (aggregate_lookup st (filter (λ r, rec_id r ∈ existing) (tbl_recipe st)) Hfk)
      as (m & Hm & _). eauto.
  - intros Hnone. rewrite Hcreate, Hnone.
    rewrite filter_none; [done|]. intros r _ Hr. by apply elem_of_nil in Hr.
Qed.

Lemma shopping_list_unknown_ids_witness :
  user (as_user 7) = Some 7 ∧ [999; 1; 1000] ≠ [] ∧ fk_integrity sample ∧
  ∃ m, ShoppingListSerializer.create sample (Some (as_user 7)) (Some [999; 1; 1000]) = Ok m.
Proof.
  split; [reflexivity|]. split; [discriminate|]. split; [apply sample_fk_integrity|].
  apply (proj1 shopping_list_unknown_ids sample (as_user 7) 7 [999; 1; 1000]);
    [reflexivity | discriminate | apply sample_fk_integrity].
Defined.

(** ** Validation *)

Lemma size_list_to_set_le (l : list Z) : (size (list_to_set (C:=gset Z) l) ≤ length l)%nat.
Proof.
  induction l as [|x l IH]; [by vm_compute|]. cbn [list_to_set length].
  pose proof (size_union_alt {[x]} (list_to_set (C:=gset Z) l)) as Hu.
  assert (size (list_to_set (C:=gset Z) l ∖ {[x]}) ≤ size (list_to_set (C:=gset Z) l))%nat
    as Hs by (apply subseteq_size; set_solver).
  rewrite size_singleton in Hu. lia.
Qed.

(** [len(ids) != len(set(ids))] detects exactly the lists with a repeated
    element. *)
Lemma len_set_NoDup (l : list Z) :
  length l = size (list_to_set (C:=gset Z) l) ↔ NoDup l.
Proof.
  split; [|intros H; by rewrite size_list_to_set].
  induction l as [|x l IH]; [constructor|]. cbn [list_to_set length]. intros Hlen.
  pose proof (size_list_to_set_le l) as Hle.
  destruct (decide (x ∈ l)) as [Hx|Hx].
  - assert ({[x]} ∪ list_to_set (C:=gset Z) l = list_to_set l) as Heq by set_solver.
    rewrite Heq in Hlen. lia.
  - rewrite size_union, size_singleton in Hlen by set_solver.
    constructor; [done|]. apply IH. lia.
Qed.

Section validation.
Import RecipeDetailSerializer.
Variable st : Store.

Lemma validate_ingredient_ok (e : IngredientInput) :
  entry_ok st e → validate_ingredient st e = Ok ().
Proof. intros [Ha He]. unfold validate_ingredient. by rewrite Ha, He. Qed.

Lemma validate_loop_ok (l : list IngredientInput) :
  Forall (entry_ok st) l → for_each (λ _ e, validate_ingredient st e) l () = Ok ().
Proof.
  induction 1 as [|e l He _ IH]; simpl; [done|].
  by rewrite validate_ingredient_ok.
Qed.

Lemma validate_loop_ok_inv (l : list IngredientInput) (u : unit) :
  for_each (λ _ e, validate_ingredient st e) l () = Ok u → Forall (entry_ok st) l.
Proof.
  induction l as [|e l IH]; simpl; [constructor|].
  unfold validate_ingredient at 1, entry_ok.
  destruct (bad_amount (amount e)) eqn:Ha; simpl; [done|].
  destruct (ingredient_exists st (ingredient e)) eqn:He; simpl; [|done].
  intros H. constructor; [done | by apply IH].
Qed.

(** The loop stops at the first entry that fails a check, with the
    exception of that entry. *)
Lemma validate_loop_first (pre post : list IngredientInput) (e : IngredientInput) :
  Forall (entry_ok st) pre →
  for_each (λ _ e, validate_ingredient st e) (pre ++ e :: post) () =
    bind (validate_ingredient st e)
         (for_each (λ _ e, validate_ingredient st e) post).
Proof.
  intros Hpre. rewrite for_each_app, validate_loop_ok by done. simpl.
  by destruct (validate_ingredient st e) as [[]|].
Qed.

(** The first three rules, then the loop. *)
Lemma validate_unfold (data : RecipeData) :
  validate st data =
    match default [] (d_tags data), default [] (d_ingredients_data data) with
    | [], _ => Raise (ValidationError MissingTags)
    | _, [] => Raise (ValidationError MissingIngredients)
    | _, l =>
      if bool_decide (NoDup (ingredient <$> l)) then
        bind (for_each (λ _ e, validate_ingredient st e) l ()) (λ _, Ok data)
      else Raise (ValidationError DuplicateIngredient)
    end.
Proof.
  unfold validate. destruct (default [] (d_tags data)) as [|t ts]; [done|].
  destruct (d_ingredients_data data) as [[|e l]|]; simpl; [done| |done].
  destruct (decide (NoDup (ingredient e :: (ingredient <$> l)))) as [Hnd|Hnd].
  - rewrite bool_decide_eq_false_2, bool_decide_eq_true_2; [done|done|].
    intros Hne. apply Hne. by apply (len_set_NoDup (ingredient e :: (ingredient <$> l))).
  - rewrite bool_decide_eq_true_2, bool_decide_eq_false_2; [done|done|].
    intros Heq. apply Hnd. by apply len_set_NoDup.
Qed.

End validation.

(** C4, amended.  Validation fails fast.  An empty or absent tag set fails
    with MissingTags; else an empty or absent ingredient list fails with
    MissingIngredients; else a repeated ingredient identifier fails with
    DuplicateIngredient.  After that the entries are checked one by one in
    list order, the amount of an entry before its identifier: the first
    entry with an absent or too small amount or with an identifier that is
    not stored decides the failure, which is InvalidAmount when its amount
    is absent or below 0.1 and UnknownIngredient(id) otherwise.  A payload
    that violates none of the rules validates and is returned unchanged. *)
Theorem validate_order (st : Store) (data : RecipeData) :
  let tags := default [] (d_tags data) in
  let ingredients_data := default [] (d_ingredients_data data) in
  let validate := RecipeDetailSerializer.validate st data in
  (tags = [] → validate = Raise (ValidationError MissingTags)) ∧
  (tags ≠ [] → ingredients_data = [] →
   validate = Raise (ValidationError MissingIngredients)) ∧
  (tags ≠ [] → ingredients_data ≠ [] → ¬ NoDup (ingredient <$> ingredients_data) →
   validate = Raise (ValidationError DuplicateIngredient)) ∧
  (tags ≠ [] → NoDup (ingredient <$> ingredients_data) →
   ∀ pre e post,
     ingredients_data = pre ++ e :: post →
     Forall (entry_ok st) pre →
     (RecipeDetailSerializer.bad_amount (amount e) = true →
      validate = Raise (ValidationError InvalidAmount)) ∧
     (RecipeDetailSerializer.bad_amount (amount e) = false →
      ingredient_exists st (ingredient e) = false →
      validate = Raise (ValidationError (UnknownIngredient (ingredient e))))) ∧
  (tags ≠ [] → ingredients_data ≠ [] → NoDup (ingredient <$> ingredients_data) →
   Forall (entry_ok st) ingredients_data →
   validate = Ok data).
Proof.
  cbv zeta. rewrite validate_unfold.
  generalize (default [] (d_tags data)) as tags.
  generalize (default [] (d_ingredients_data data)) as ingredients_data.
  intros ingredients_data tags.
  split; [by intros ->|].
  split; [intros Ht ->; by destruct tags|].
  split.
  { intros Ht Hl Hdup. destruct tags; [done|]. destruct ingredients_data; [done|].
    cbv zeta. by rewrite bool_decide_eq_false_2. }
  split.
  - intros Ht Hnd pre e post Hl Hpre. destruct tags; [done|].
    assert (ingredients_data ≠ []) as Hne by (rewrite Hl; by destruct pre).
    destruct ingredients_data as [|e' l']; [done|]. cbv zeta.
    rewrite bool_decide_eq_true_2 by done.
    rewrite Hl, validate_loop_first by done.
    unfold RecipeDetailSerializer.validate_ingredient.
    split; [by intros ->|]. by intros -> ->.
  - intros Ht Hl Hnd Hok. destruct tags; [done|]. destruct ingredients_data; [done|].
    cbv zeta. by rewrite bool_decide_eq_true_2, validate_loop_ok.
Qed.

Lemma validate_order_witness :
  RecipeDetailSerializer.validate sample unknown_then_small =
    Raise (ValidationError (UnknownIngredient 999)) ∧
  RecipeDetailSerializer.validate sample egg_and_flour = Ok egg_and_flour ∧
  RecipeDetailSerializer.validate sample no_data = Raise (ValidationError MissingTags).
Proof.
  split; [|split].
  - refine (proj2 (proj1 (proj2 (proj2 (proj2 (validate_order sample unknown_then_small)))) _ _
                     [] {| ingredient := 999; amount := Some 100 |}
                     [ {| ingredient := 1; amount := Some 5 |} ] _ _) _ _).
    + discriminate.
    + apply (bool_decide_unpack _). by vm_compute.
    + reflexivity.
    + constructor.
    + reflexivity.
    + reflexivity.
  - refine (proj2 (proj2 (proj2 (proj2 (validate_order sample egg_and_flour)))) _ _ _ _).
    + discriminate.
    + discriminate.
    + apply (bool_decide_unpack _). by vm_compute.
    + repeat constructor.
  - apply (proj1 (validate_order sample no_data)). reflexivity.
Defined.

(** C4 as stated does not hold: a payload may violate rule 4 and rule 5 on
    different entries and be refused for the unknown ingredient, because
    the entry with the unknown identifier comes first. *)
Lemma validate_order_counterexample :
  ¬ (∀ (st : Store) (data : RecipeData),
       default [] (d_tags data) ≠ [] →
       NoDup (ingredient <$> default [] (d_ingredients_data data)) →
       Exists (λ e, RecipeDetailSerializer.bad_amount (amount e) = true)
         (default [] (d_ingredients_data data)) →
       Exists (λ e, ingredient_exists st (ingredient e) = false)
         (default [] (d_ingredients_data data)) →
       RecipeDetailSerializer.validate st data = Raise (ValidationError InvalidAmount)).
Proof.
  intros H. specialize (H sample unknown_then_small).
  assert (RecipeDetailSerializer.validate sample unknown_then_small =
          Raise (ValidationError (UnknownIngredient 999))) as Hcode by by vm_compute.
  rewrite Hcode in H. discriminate H.
  - discriminate.
  - apply (bool_decide_unpack _). by vm_compute.
  - apply Exists_cons_tl, Exists_cons_hd. reflexivity.
  - apply Exists_cons_hd. reflexivity.
Qed.

(** ** Recipe update *)

Section update.
Import RecipeDetailSerializer.

(** On success [validate] returns the payload it was given, and the
    payload has tags and an ingredient list that passed every rule. *)
Lemma validate_Ok_inv (st : Store) (data v : RecipeData) :
  validate st data = Ok v →
  v = data ∧
  ∃ ts l, d_tags data = Some ts ∧ ts ≠ [] ∧
          d_ingredients_data data = Some l ∧ l ≠ [] ∧
          NoDup (ingredient <$> l) ∧ Forall (entry_ok st) l.
Proof.
  rewrite validate_unfold.
  destruct (d_tags data) as [[|t ts]|] eqn:Ht; cbn [from_option id]; try done.
  destruct (d_ingredients_data data) as [[|e l]|] eqn:Hl; cbn [from_option id]; try done.
  cbv zeta. destruct (decide (NoDup (ingredient <$> e :: l))) as [Hnd|Hnd];
    [rewrite bool_decide_eq_true_2 by done | by rewrite bool_decide_eq_false_2].
  intros ([] & Hloop & [= <-])%bind_Ok.
  apply validate_loop_ok_inv in Hloop.
  split; [done|]. exists (t :: ts), (e :: l). by repeat split.
Qed.

Lemma entry_ok_insertable (st : Store) (e : IngredientInput) :
  entry_ok st e → entry_insertable st e.
Proof.
  intros [Ha He]. split; [done|]. unfold bad_amount in Ha.
  by destruct (amount e).
Qed.

(** The insertion loop succeeds on entries with distinct, stored
    ingredients none of which the recipe already has, and appends one row
    per entry, in order, with the amount of the entry. *)
Lemma create_ingredients_rows (rid : Z) (l : list IngredientInput) (st : Store) :
  recipe_exists st rid = true →
  Forall (entry_insertable st) l →
  NoDup (ingredient <$> l) →
  (∀ row, row ∈ tbl_recipe_ingredient st → ri_recipe row = rid →
          ri_ingredient row ∉ ingredient <$> l) →
  ∃ st' rows,
    create_ingredients rid l st = Ok st' ∧
    tbl_recipe_ingredient st' = tbl_recipe_ingredient st ++ rows ∧
    Forall (λ row, ri_recipe row = rid) rows ∧
    row_amounts rows = payload_amounts l.
Proof.
  revert st. induction l as [|e l IH]; intros st Hrec Hl Hnd Hfresh.
  { exists st, []. by rewrite app_nil_r. }
  apply Forall_cons in Hl as [[He [a Ha]] Hl].
  rewrite fmap_cons in Hnd. apply NoDup_cons in Hnd as [Hel Hnd].
  set (row := {| ri_id := seq_recipe_ingredient st; ri_recipe := rid;
                 ri_ingredient := ingredient e; ri_amount := a |}).
  set (st1 := with_recipe_ingredient st (tbl_recipe_ingredient st ++ [row])
                (seq_recipe_ingredient st + 1)).
  assert (RecipeIngredient_create st rid (ingredient e) a = Ok st1) as Hcreate.
  { unfold RecipeIngredient_create. rewrite Hrec, He.
    rewrite bool_decide_eq_false_2; [done|].
    intros (row' & Hin & Hr & Hi)%Exists_exists.
    apply (Hfresh row' Hin Hr). rewrite Hi, fmap_cons. left. }
  destruct (IH st1) as (st' & rows & Hloop & Htbl & Hrows & Hamounts).
  - done.
  - done.
  - done.
  - intros row' [Hin | ->%list_elem_of_singleton]%elem_of_app Hr.
    + intros Hmem. apply (Hfresh row' Hin Hr). rewrite fmap_cons. by right.
    + done.
  - exists st', (row :: rows). split; [|split; [|split]].
    + unfold create_ingredients. cbn [for_each]. rewrite Ha, Hcreate. apply Hloop.
    + rewrite Htbl. subst st1. simpl. by rewrite <- app_assoc.
    + by constructor.
    + unfold row_amounts, payload_amounts in *. rewrite !fmap_cons, Hamounts.
      subst row. simpl. by rewrite Ha.
Qed.

Lemma recipe_exists_save (st : Store) (r : Recipe) :
  recipe_exists (save st r) (rec_id r) = true.
Proof.
  unfold save, recipe_exists.
  destruct (decide (Exists (λ x, rec_id x = rec_id r) (tbl_recipe st))) as [Hex|Hex].
  - rewrite (bool_decide_eq_true_2 _ Hex). apply bool_decide_eq_true. simpl.
    apply Exists_exists in Hex as (x & Hin & Hx). apply Exists_exists.
    exists r. split; [|done]. apply list_elem_of_fmap. exists x.
    by rewrite bool_decide_eq_true_2.
  - rewrite (bool_decide_eq_false_2 _ Hex). apply bool_decide_eq_true. simpl.
    apply Exists_app. right. by constructor.
Qed.

End update.

(** C2. When an update payload supplies an ingredient list, the recipe's
    RecipeIngredient rows after the update are exactly one row per payload
    entry, in payload order and with the payload's amounts: the prior rows
    are all deleted, so none survives unless the payload supplies it again.
    This holds for [update] on any list of distinct stored ingredients
    with amounts, and so for every payload that passed validation. *)
Theorem update_replaces_ingredients :
  (∀ (st : Store) (instance : Recipe) (data : RecipeData) (l : list IngredientInput),
     d_ingredients_data data = Some l →
     NoDup (ingredient <$> l) →
     Forall (entry_insertable st) l →
     ∃ st' instance',
       RecipeDetailSerializer.update st instance data = Ok (st', instance') ∧
       rec_id instance' = rec_id instance ∧
       row_amounts (recipe_ingredients st' (rec_id instance)) = payload_amounts l)
  ∧ (∀ (st : Store) (instance : Recipe) (data : RecipeData) (l : list IngredientInput),
       d_ingredients_data data = Some l →
       RecipeDetailSerializer.validate st data = Ok data →
       ∃ st' instance',
         RecipeDetailSerializer.is_valid_then_save st instance data = Ok (st', instance') ∧
         rec_id instance' = rec_id instance ∧
         row_amounts (recipe_ingredients st' (rec_id instance)) = payload_amounts l).
Proof.
  assert (∀ st instance data l,
            d_ingredients_data data = Some l →
            NoDup (ingredient <$> l) →
            Forall (entry_insertable st) l →
            ∃ st' instance',
              RecipeDetailSerializer.update st instance data = Ok (st', instance') ∧
              rec_id instance' = rec_id instance ∧
              row_amounts (recipe_ingredients st' (rec_id instance)) = payload_amounts l)
    as Hupdate.
  { intros st instance data l Hdata Hnd Hl.
    unfold RecipeDetailSerializer.update. rewrite Hdata. cbv zeta. cbn [rec_id].
    match goal with
    | |- context [RecipeDetailSerializer.create_ingredients _ _ ?s] => set (st0 := s)
    end.
    destruct (create_ingredients_rows (rec_id instance) l st0)
      as (st' & rows & Hloop & Htbl & Hrows & Hamounts).
    - assert (tbl_recipe st0 =
              tbl_recipe (save st
                {| rec_id := rec_id instance; rec_author := rec_author instance;
                   rec_title := default (rec_title instance) (d_title data);
                   rec_description := default (rec_description instance) (d_description data);
                   rec_steps := default (rec_steps instance) (d_steps data);
                   rec_time_minutes := default (rec_time_minutes instance) (d_time_minutes data) |}))
        as Htbl by (subst st0; by destruct (d_tags data)).
      unfold recipe_exists. rewrite Htbl.
      match goal with
      | |- context [save st ?r] => apply (recipe_exists_save st r)
      end.
    - assert (tbl_ingredient st0 = tbl_ingredient st) as Hing.
      { subst st0. unfold save. destruct (d_tags data); by case_bool_decide. }
      eapply Forall_impl; [apply Hl|]. intros e [He Ha]. split; [|done].
      unfold ingredient_exists in *. by rewrite Hing.
    - done.
    - intros row Hrow Hr. subst st0. cbn [tbl_recipe_ingredient with_recipe_ingredient] in Hrow.
      by apply list_elem_of_filter in Hrow as [Hne _].
    - exists st'. eexists. split; [by rewrite Hloop|]. split; [done|].
      unfold recipe_ingredients. rewrite Htbl, filter_app.
      subst st0. cbn [tbl_recipe_ingredient with_recipe_ingredient].
      rewrite list_filter_filter, filter_none, app_nil_l by (by intros row _ [? ?]).
      rewrite <- Hamounts. f_equal. clear -Hrows.
      induction Hrows as [|row rows Hr _ IH]; [done|].
      by rewrite filter_cons_True, IH. }
  split; [done|].
  intros st instance data l Hdata Hvalid.
  unfold RecipeDetailSerializer.is_valid_then_save. rewrite Hvalid. cbn [bind].
  apply validate_Ok_inv in Hvalid as (_ & ts & l' & _ & _ & Hl' & _ & Hnd & Hok).
  rewrite Hdata in Hl'. injection Hl' as <-.
  apply Hupdate; [done | done |].
  eapply Forall_impl; [apply Hok|]. apply entry_ok_insertable.
Qed.

Lemma update_replaces_ingredients_witness :
  d_ingredients_data egg_and_flour =
    Some [ {| ingredient := 3; amount := Some 300 |};
           {| ingredient := 1; amount := Some 50 |} ] ∧
  RecipeDetailSerializer.validate sample egg_and_flour = Ok egg_and_flour ∧
  ∃ st' instance',
    RecipeDetailSerializer.is_valid_then_save sample R1 egg_and_flour = Ok (st', instance') ∧
    rec_id instance' = rec_id R1 ∧
    row_amounts (recipe_ingredients st' (rec_id R1)) = [(3, Some 300); (1, Some 50)].
Proof.
  split; [reflexivity|]. split; [by vm_compute|].
  apply (proj2 update_replaces_ingredients sample R1 egg_and_flour
           [ {| ingredient := 3; amount := Some 300 |};
             {| ingredient := 1; amount := Some 50 |} ]);
    [reflexivity | by vm_compute].
Defined.

(** [update] on its own treats every absent key as "leave alone": it then
    succeeds, keeps the scalar field, the tag associations and the
    RecipeIngredient table. *)
Lemma update_absent_untouched (st : Store) (instance : Recipe) (data : RecipeData) :
  d_ingredients_data data = None →
  ∃ st' instance',
    RecipeDetailSerializer.update st instance data = Ok (st', instance') ∧
    tbl_recipe_ingredient st' = tbl_recipe_ingredient st ∧
    (d_tags data = None → tbl_recipe_tags st' = tbl_recipe_tags st) ∧
    (d_title data = None → rec_title instance' = rec_title instance) ∧
    (d_description data = None → rec_description instance' = rec_description instance) ∧
    (d_steps data = None → rec_steps instance' = rec_steps instance) ∧
    (d_time_minutes data = None → rec_time_minutes instance' = rec_time_minutes instance).
Proof.
  intros Hing. unfold RecipeDetailSerializer.update. rewrite Hing. cbv zeta.
  eexists _, _. split; [done|]. cbn [rec_id rec_title rec_description rec_steps rec_time_minutes].
  split; [|split; [|repeat split; by intros ->]].
  - unfold save. destruct (d_tags data); by case_bool_decide.
  - intros ->. unfold save. by case_bool_decide.
Qed.

(** C3, at the failing input.  A partial update that supplies only a new
    title is refused by [validate] before [update] runs, although [update]
    applied to the same payload renames the recipe and leaves its tags and
    ingredients alone; the same refusal meets every payload without tags,
    and every payload with tags but without an ingredient list. *)
Theorem partial_update_rejected :
  RecipeDetailSerializer.is_valid_then_save sample R1 title_only =
    Raise (ValidationError MissingTags)
  ∧ (∃ st' instance',
       RecipeDetailSerializer.update sample R1 title_only = Ok (st', instance') ∧
       rec_title instance' = "Sponge cake" ∧
       tbl_recipe_tags st' = tbl_recipe_tags sample ∧
       tbl_recipe_ingredient st' = tbl_recipe_ingredient sample)
  ∧ (∀ (st : Store) (instance : Recipe) title description steps time_minutes ingredients_data,
       RecipeDetailSerializer.is_valid_then_save st instance
         {| d_title := title; d_description := description; d_steps := steps;
            d_time_minutes := time_minutes; d_tags := None;
            d_ingredients_data := ingredients_data |} =
       Raise (ValidationError MissingTags))
  ∧ (∀ (st : Store) (instance : Recipe) title description steps time_minutes t ts,
       RecipeDetailSerializer.is_valid_then_save st instance
         {| d_title := title; d_description := description; d_steps := steps;
            d_time_minutes := time_minutes; d_tags := Some (t :: ts);
            d_ingredients_data := None |} =
       Raise (ValidationError MissingIngredients)).
Proof.
  split; [by vm_compute|]. split; [|split; done].
  destruct (update_absent_untouched sample R1 title_only eq_refl)
    as (st' & instance' & Hupdate & Hrows & Htags & _).
  exists st', instance'. split; [done|]. split; [|split; [by apply Htags | done]].
  vm_compute in Hupdate. by injection Hupdate as _ <-.
Qed.

(** ** Average rating *)











(** ** Recipe views *)

Section views.
Import RecipeViewSet.
Variable int : string → option Z.

Lemma filter_favorites_user_stored (u : Z) (rs : list Recipe) (favs : list Favorite)
    (r : Recipe) :
  r ∈ filter_favorites_user u rs favs → r ∈ rs.
Proof. by intros [? _]%filter_favorites_user_elem. Qed.

Lemma get_queryset_stored (st : Store) (request : Request) (qs : list Recipe) (r : Recipe) :
  get_queryset int st request = Ok qs → r ∈ qs → r ∈ tbl_recipe st.
Proof.
  unfold get_queryset. intros (base & Hbase & Hqs)%bind_Ok Hr.
  assert (r ∈ base → r ∈ tbl_recipe st) as Hstored.
  { destruct (qp_author request) as [a|]; [|by injection Hbase as <-].
    case_bool_decide; [|by injection Hbase as <-].
    destruct (int a); [|done]. injection Hbase as <-.
    by intros [_ ?]%list_elem_of_filter. }
  apply Hstored.
  destruct (qp_favorited request) as [v|], (user request) as [u|];
    try (by injection Hqs as <-).
  case_bool_decide; injection Hqs as <-; [|done].
  by apply filter_favorites_user_stored in Hr.
Qed.

Lemma get_object_stored (st : Store) (request : Request) (pk : Z) (recipe : Recipe) :
  get_object int st request pk = Ok recipe → recipe_exists st (rec_id recipe) = true.
Proof.
  unfold get_object. intros (qs & Hqs & Hget)%bind_Ok.
  destruct (filter _ qs) as [|r [|r' rs]] eqn:E; try done. injection Hget as ->.
  apply recipe_exists_stored, (get_queryset_stored st request qs); [done|].
  assert (recipe ∈ filter (λ r, rec_id r = pk) qs) as Hin by (rewrite E; left).
  by apply list_elem_of_filter in Hin as [_ ?].
Qed.

(** C6. For an authenticated user and a recipe the view resolves:
    favoriting a recipe the user has already favorited is refused with the
    response "Already in favorites" and leaves the store as it was;
    favoriting one not yet favorited succeeds and adds exactly one
    Favorite row, the only one of that user and recipe; un-favoriting a
    recipe the user has not favorited fails as not found. *)
Theorem favorite_toggle (st : Store) (request : Request) (u pk : Z) (recipe : Recipe) :
  user request = Some u →
  get_object int st request pk = Ok recipe →
  (favorites_of st u (rec_id recipe) ≠ [] →
   favorite int st request pk =
     Ok (st, {| data := Detail "Already in favorites"; status := 400 |})) ∧
  (favorites_of st u (rec_id recipe) = [] →
   ∃ st' row,
     favorite int st request pk = Ok (st', {| data := NoData; status := 201 |}) ∧
     tbl_favorite st' = tbl_favorite st ++ [row] ∧
     fav_user row = u ∧ fav_recipe row = rec_id recipe ∧
     favorites_of st' u (rec_id recipe) = [row]) ∧
  (favorites_of st u (rec_id recipe) = [] →
   unfavorite int st request pk = Raise Http404).
Proof.
  intros Hu Hobj. pose proof (get_object_stored _ _ _ _ Hobj) as Hexists.
  unfold favorite, unfavorite. rewrite Hu, Hobj. cbn [bind].
  split; [|split].
  - intros Hfav. by rewrite bool_decide_eq_true_2.
  - intros Hnone. rewrite bool_decide_eq_false_2 by (by intros ?).
    unfold Favorite_create. rewrite Hexists, bool_decide_eq_true_2 by done.
    eexists _, _. split; [done|]. cbn [tbl_favorite with_favorite].
    split; [done|]. split; [done|]. split; [done|].
    unfold favorites_of in *. cbn [tbl_favorite with_favorite].
    rewrite filter_app, Hnone, app_nil_l. by rewrite filter_cons_True, filter_nil.
  - by intros ->.
Qed.

(** C10. The [favorited] filter of the recipe list looks only at whether
    the parameter is present and non-empty, never at its value: for an
    authenticated requester every non-empty value restricts the listing to
    the recipes of the listing that the requester has favorited, and for
    an unauthenticated requester the parameter changes nothing. *)
Theorem favorited_filter_ignores_value (st : Store) (request : Request) :
  (∀ u v, user request = Some u → v ≠ "" →
     get_queryset int st (with_favorited request (Some v)) =
       bind (get_queryset int st (with_favorited request None))
            (λ listing, Ok (filter_favorites_user u listing (tbl_favorite st)))) ∧
  (∀ u listing r,
     r ∈ filter_favorites_user u listing (tbl_favorite st) ↔
     r ∈ listing ∧ favorited_by st u r) ∧
  (∀ favorited, user request = None →
     get_queryset int st (with_favorited request favorited) =
     get_queryset int st (with_favorited request None)).
Proof.
  split; [|split].
  - intros u v Hu Hv. unfold get_queryset, with_favorited.
    cbn [user qp_author qp_favorited]. rewrite Hu.
    rewrite bool_decide_eq_true_2 by done.
    destruct (qp_author request) as [a|]; [|done].
    case_bool_decide; [|done]. by destruct (int a).
  - intros u listing r. apply filter_favorites_user_elem.
  - intros favorited Hu. unfold get_queryset, with_favorited.
    cbn [user qp_author qp_favorited]. rewrite Hu. by destruct favorited.
Qed.

End views.

Lemma favorite_toggle_witness :
  user (as_user 7) = Some 7 ∧
  RecipeViewSet.get_object (λ _, None) sample (as_user 7) 1 = Ok R1 ∧
  RecipeViewSet.get_object (λ _, None) sample (as_user 7) 3 = Ok R3 ∧
  RecipeViewSet.favorite (λ _, None) sample (as_user 7) 1 =
    Ok (sample, {| data := Detail "Already in favorites"; status := 400 |}) ∧
  RecipeViewSet.unfavorite (λ _, None) sample (as_user 7) 3 = Raise Http404.
Proof.
  split; [reflexivity|]. split; [by vm_compute|]. split; [by vm_compute|]. split.
  - apply (proj1 (favorite_toggle (λ _, None) sample (as_user 7) 7 1 R1 eq_refl eq_refl)).
    by vm_compute.
  - apply (proj2 (proj2 (favorite_toggle (λ _, None) sample (as_user 7) 7 3 R3 eq_refl eq_refl))).
    by vm_compute.
Defined.

Lemma favorited_filter_ignores_value_witness :
  user (as_user 7) = Some 7 ∧ "false" ≠ "" ∧
  RecipeViewSet.get_queryset (λ _, None) sample (with_favorited (as_user 7) (Some "false")) =
    Ok [R1; R2] ∧
  RecipeViewSet.get_queryset (λ _, None) sample (with_favorited anonymous (Some "1")) =
    Ok [R1; R2; R3].
Proof.
  split; [reflexivity|]. split; [discriminate|]. split.
  - rewrite (proj1 (favorited_filter_ignores_value (λ _, None) sample (as_user 7))
               7 "false" eq_refl); [by vm_compute | discriminate].
  - rewrite (proj2 (proj2 (favorited_filter_ignores_value (λ _, None) sample anonymous))
               (Some "1") eq_refl). by vm_compute.
Defined.

(** * Properties of the rest of the application *)

(** ** Validation, the converse *)

(** X1. [validate] accepts exactly the payloads that have at least one tag
    and a non-empty ingredient list of distinct, stored ingredients whose
    amounts are all present and at least 0.1: every such payload is
    accepted, no other is; and an accepted payload is returned as it came. *)
Theorem validate_accepts_exactly (st : Store) (data : RecipeData) :
  (RecipeDetailSerializer.validate st data = Ok data ↔
   ∃ ts l, d_tags data = Some ts ∧ ts ≠ [] ∧
           d_ingredients_data data = Some l ∧ l ≠ [] ∧
           NoDup (ingredient <$> l) ∧
           Forall (λ e, (∃ a, amount e = Some a ∧ 10 ≤ a) ∧
                        ingredient_exists st (ingredient e) = true) l) ∧
  (∀ v, RecipeDetailSerializer.validate st data = Ok v → v = data).
Proof.
  split; [split|].
  - intros Hv. destruct (validate_Ok_inv st data data Hv)
      as (_ & ts & l & Hts & Hne & Hl & Hlne & Hnd & Hok).
    exists ts, l. repeat split; try done.
    eapply Forall_impl; [apply Hok|]. intros e [Ha He]. split; [|done].
    unfold RecipeDetailSerializer.bad_amount in Ha.
    destruct (amount e) as [a|]; [|done]. exists a. split; [done|].
    apply orb_false_iff in Ha as [_ Ha]. apply bool_decide_eq_false in Ha. lia.
  - intros (ts & l & Hts & Hne & Hl & Hlne & Hnd & Hok).
    rewrite validate_unfold, Hts, Hl. cbn [from_option id].
    destruct ts as [|t ts]; [done|]. destruct l as [|e l]; [done|].
    rewrite bool_decide_eq_true_2 by done.
    rewrite validate_loop_ok; [done|].
    eapply Forall_impl; [apply Hok|]. intros x [(a & Ha & Hge) Hx]. split; [|done].
    unfold RecipeDetailSerializer.bad_amount. rewrite Ha.
    apply orb_false_iff. split; apply bool_decide_eq_false; lia.
  - intros v Hv. by destruct (validate_Ok_inv st data v Hv) as [-> _].
Qed.

Lemma validate_accepts_exactly_witness :
  (∃ ts l, d_tags egg_and_flour = Some ts ∧ ts ≠ [] ∧
           d_ingredients_data egg_and_flour = Some l ∧ l ≠ [] ∧
           NoDup (ingredient <$> l) ∧
           Forall (λ e, (∃ a, amount e = Some a ∧ 10 ≤ a) ∧
                        ingredient_exists sample (ingredient e) = true) l) ∧
  RecipeDetailSerializer.validate sample egg_and_flour = Ok egg_and_flour ∧
  ¬ RecipeDetailSerializer.validate sample unknown_then_small = Ok unknown_then_small.
Proof.
  assert (∃ ts l, d_tags egg_and_flour = Some ts ∧ ts ≠ [] ∧
           d_ingredients_data egg_and_flour = Some l ∧ l ≠ [] ∧
           NoDup (ingredient <$> l) ∧
           Forall (λ e, (∃ a, amount e = Some a ∧ 10 ≤ a) ∧
                        ingredient_exists sample (ingredient e) = true) l) as H.
  { eexists _, _. split; [reflexivity|]. split; [discriminate|].
    split; [reflexivity|]. split; [discriminate|].
    split; [apply (bool_decide_unpack _); by vm_compute|].
    repeat (constructor; [split; [eexists; split; [reflexivity|lia] | reflexivity]|]).
    constructor. }
  split; [done|]. split.
  - by apply (proj2 (proj1 (validate_accepts_exactly sample egg_and_flour))).
  - intros Hv.
    destruct (proj1 (proj1 (validate_accepts_exactly sample unknown_then_small)) Hv)
      as (ts & l & _ & _ & [= <-] & _ & _ & Hok).
    apply Forall_cons in Hok as [[_ Hx] _]. by vm_compute in Hx.
Defined.

(** ** Access control *)

(** X2. Recipes and comments: creating needs an authenticated requester;
    an update, partial update or deletion sent with a method other than
    GET, HEAD and OPTIONS is allowed exactly to the author of the object, so
    never to an anonymous requester; every other action, among them
    [favorite], [rating] and [shopping_list], is open to every requester,
    anonymous ones included. *)
Theorem recipe_and_comment_permissions (request : Request) (method : string) (author : Z) :
  ∀ get_permissions,
    get_permissions = RecipeViewSet_get_permissions ∨
    get_permissions = CommentViewSet_get_permissions →
    check_permissions (get_permissions "create") request = is_authenticated request ∧
    (∀ action,
       action ∈ ["update"; "partial_update"; "destroy"] →
       method ∉ ["GET"; "HEAD"; "OPTIONS"] →
       check_permissions (get_permissions action) request &&
       check_object_permissions (get_permissions action) method request author =
         bool_decide (user request = Some author)) ∧
    (∀ action,
       action ∉ ["create"; "update"; "partial_update"; "destroy"] →
       check_permissions (get_permissions action) request = true ∧
       check_object_permissions (get_permissions action) method request author = true).
Proof.
  assert (∀ action : string,
            action ∈ ["update"; "partial_update"; "destroy"] → action ∉ ["create"]) as Hnc.
  { intros action Ha Hc. apply list_elem_of_singleton in Hc as ->.
    apply (bool_decide_pack _) in Ha. by vm_compute in Ha. }
  intros get_permissions [-> | ->].
  - split.
    { unfold RecipeViewSet_get_permissions.
      rewrite bool_decide_eq_true_2 by (by apply (bool_decide_unpack _)).
      simpl. by rewrite andb_true_r. }
    split.
    + intros action Ha Hm. unfold RecipeViewSet_get_permissions.
      rewrite (bool_decide_eq_false_2 _ (Hnc action Ha)), (bool_decide_eq_true_2 _ Ha).
      simpl. by rewrite (bool_decide_eq_false_2 _ Hm), andb_true_r.
    + intros action Ha. unfold RecipeViewSet_get_permissions.
      rewrite !bool_decide_eq_false_2; [done| |];
        intros Hin; apply Ha; revert Hin; rewrite !elem_of_cons; tauto.
  - split.
    { unfold CommentViewSet_get_permissions.
      rewrite bool_decide_eq_true_2 by (by apply (bool_decide_unpack _)).
      simpl. by rewrite andb_true_r. }
    split.
    + intros action Ha Hm. unfold CommentViewSet_get_permissions.
      rewrite (bool_decide_eq_false_2 _ (Hnc action Ha)), (bool_decide_eq_true_2 _ Ha).
      simpl. by rewrite (bool_decide_eq_false_2 _ Hm), andb_true_r.
    + intros action Ha. unfold CommentViewSet_get_permissions.
      rewrite !bool_decide_eq_false_2; [done| |];
        intros Hin; apply Ha; revert Hin; rewrite !elem_of_cons; tauto.
Qed.

Lemma recipe_and_comment_permissions_witness :
  check_permissions (RecipeViewSet_get_permissions "destroy") (as_user 8) &&
  check_object_permissions (RecipeViewSet_get_permissions "destroy") "DELETE" (as_user 8) 7 =
    false ∧
  check_permissions (RecipeViewSet_get_permissions "favorite") anonymous = true.
Proof.
  split.
  - rewrite (proj1 (proj2 (recipe_and_comment_permissions (as_user 8) "DELETE" 7
                             RecipeViewSet_get_permissions (or_introl eq_refl)))
               "destroy"); [done | by apply (bool_decide_unpack _) |].
    intros H. apply (bool_decide_pack _) in H. by vm_compute in H.
  - apply (proj2 (proj2 (recipe_and_comment_permissions anonymous "POST" 7
                           RecipeViewSet_get_permissions (or_introl eq_refl)))
             "favorite").
    intros H. apply (bool_decide_pack _) in H. by vm_compute in H.
Defined.

(** X3. Tags and ingredients: creating, updating and deleting need an
    authenticated requester and nothing more, no ownership; every other
    action is open to everyone. *)
Theorem tag_and_ingredient_permissions (request : Request) (method : string) (author : Z) :
  ∀ get_permissions,
    get_permissions = TagViewSet_get_permissions ∨
    get_permissions = IngredientViewSet_get_permissions →
    (∀ action,
       action ∈ ["create"; "update"; "partial_update"; "destroy"] →
       check_permissions (get_permissions action) request &&
       check_object_permissions (get_permissions action) method request author =
         is_authenticated request) ∧
    (∀ action,
       action ∉ ["create"; "update"; "partial_update"; "destroy"] →
       check_permissions (get_permissions action) request &&
       check_object_permissions (get_permissions action) method request author = true).
Proof.
  intros get_permissions [-> | ->]; split; intros action Ha;
    unfold TagViewSet_get_permissions, IngredientViewSet_get_permissions;
    rewrite ?(bool_decide_eq_true_2 _ Ha), ?(bool_decide_eq_false_2 _ Ha); simpl;
    by rewrite ?andb_true_r.
Qed.

Lemma tag_and_ingredient_permissions_witness :
  check_permissions (TagViewSet_get_permissions "destroy") anonymous &&
  check_object_permissions (TagViewSet_get_permissions "destroy") "DELETE" anonymous 7 = false ∧
  check_permissions (IngredientViewSet_get_permissions "list") anonymous &&
  check_object_permissions (IngredientViewSet_get_permissions "list") "GET" anonymous 7 = true.
Proof.
  split.
  - rewrite (proj1 (tag_and_ingredient_permissions anonymous "DELETE" 7
                      TagViewSet_get_permissions (or_introl eq_refl)) "destroy");
      [done | by apply (bool_decide_unpack _)].
  - apply (proj2 (tag_and_ingredient_permissions anonymous "GET" 7
                    IngredientViewSet_get_permissions (or_intror eq_refl)) "list").
    intros H. apply (bool_decide_pack _) in H. by vm_compute in H.
Defined.

(** X4. The permission check of the shopping-list route stops nobody,
    since the permissions of the action are [AllowAny].  The request of an
    anonymous caller reaches the serializer and fails there with the
    validation error "User must be authenticated".  When the serializer
    returns the empty mapping, the route answers 200 with it; a mapping
    with an entry has a pair as a key and cannot be rendered, so the route
    raises [TypeError]. *)
Theorem shopping_list_anonymous_reaches_serializer (st : Store) (request : Request)
    (recipe_ids : option (list Z)) :
  check_permissions (RecipeViewSet_get_permissions "shopping_list") request = true ∧
  (user request = None →
   dispatch_shopping_list st request recipe_ids =
     Raise (ValidationError UserMustBeAuthenticated)) ∧
  (ShoppingListSerializer.create st (Some request) recipe_ids = Ok ∅ →
   dispatch_shopping_list st request recipe_ids =
     Ok {| data := Ingredients ∅; status := 200 |}) ∧
  (∀ m, ShoppingListSerializer.create st (Some request) recipe_ids = Ok m →
        m ≠ ∅ →
        dispatch_shopping_list st request recipe_ids = Raise TypeError) ∧
  (∀ e, ShoppingListSerializer.create st (Some request) recipe_ids = Raise e →
        dispatch_shopping_list st request recipe_ids = Raise e).
Proof.
  split; [done|]. unfold dispatch_shopping_list, RecipeViewSet.shopping_list.
  assert (check_permissions (RecipeViewSet_get_permissions "shopping_list") request = true)
    as -> by done.
  split; [|split; [|split]].
  - intros Hu. unfold ShoppingListSerializer.create. by rewrite Hu.
  - intros ->. cbn [bind render data]. by rewrite bool_decide_eq_true_2.
  - intros m -> Hm. cbn [bind render data]. by rewrite bool_decide_eq_false_2.
  - by intros e ->.
Qed.

Lemma shopping_list_anonymous_reaches_serializer_witness :
  user anonymous = None ∧
  dispatch_shopping_list sample anonymous (Some [1; 2]) =
    Raise (ValidationError UserMustBeAuthenticated) ∧
  ShoppingListSerializer.create sample (Some (as_user 9)) None = Ok ∅ ∧
  dispatch_shopping_list sample (as_user 9) None =
    Ok {| data := Ingredients ∅; status := 200 |}.
Proof.
  split; [reflexivity|]. split.
  - apply (proj1 (proj2 (shopping_list_anonymous_reaches_serializer sample anonymous
                           (Some [1; 2])))). reflexivity.
  - assert (ShoppingListSerializer.create sample (Some (as_user 9)) None = Ok ∅) as H
      by by vm_compute.
    split; [done|].
    by apply (proj1 (proj2 (proj2 (shopping_list_anonymous_reaches_serializer sample
                                     (as_user 9) None)))).
Defined.

(** ** Tag replacement *)

Lemma tags_elem (st : Store) (rid t : Z) :
  t ∈ tags st rid ↔ (rid, t) ∈ tbl_recipe_tags st.
Proof.
  unfold tags. rewrite list_elem_of_fmap. split.
  - intros ([r t'] & -> & [Hr Hin]%list_elem_of_filter). simpl in *. by subst.
  - intros Hin. exists (rid, t). split; [done|]. by apply list_elem_of_filter.
Qed.

Lemma tags_set_elem (st : Store) (rid : Z) (ts : list Z) (r t : Z) :
  (r, t) ∈ tbl_recipe_tags (tags_set st rid ts) ↔
  if decide (r = rid) then t ∈ ts else (r, t) ∈ tbl_recipe_tags st.
Proof.
  unfold tags_set. cbn [tbl_recipe_tags with_recipe_tags].
  rewrite elem_of_app, list_elem_of_filter, list_elem_of_fmap. cbn [fst snd].
  destruct (decide (r = rid)) as [->|Hne]; split.
  - intros [[[?|?] Hin] | (t' & [= ->] & [_ Hin]%list_elem_of_filter)]; [done|done|].
    by rewrite elem_of_remove_dups in Hin.
  - intros Hin. destruct (decide (t ∈ tags st rid)) as [Hold|Hnew].
    + left. split; [by right | by apply tags_elem].
    + right. exists t. split; [done|]. apply list_elem_of_filter.
      split; [done | by rewrite elem_of_remove_dups].
  - intros [[_ Hin] | (t' & [= -> ->] & _)]; done.
  - intros Hin. left. split; [by left | done].
Qed.

(** After [tags.set(ts)] the recipe is associated with exactly the tags of
    [ts], and the associations of every other recipe are as before. *)
Lemma tags_set_tags (st : Store) (rid : Z) (ts : list Z) (r t : Z) :
  t ∈ tags (tags_set st rid ts) r ↔ if decide (r = rid) then t ∈ ts else t ∈ tags st r.
Proof. rewrite tags_elem, tags_set_elem. destruct (decide (r = rid)); by rewrite ?tags_elem. Qed.

(** ** The insertion loop and the other tables *)

Lemma create_ingredients_frame (rid : Z) (l : list IngredientInput) (st st' : Store) :
  RecipeDetailSerializer.create_ingredients rid l st = Ok st' →
  tbl_ingredient st' = tbl_ingredient st ∧ tbl_recipe st' = tbl_recipe st ∧
  tbl_recipe_tags st' = tbl_recipe_tags st ∧ tbl_favorite st' = tbl_favorite st ∧
  tbl_rating st' = tbl_rating st ∧
  ∃ rows, tbl_recipe_ingredient st' = tbl_recipe_ingredient st ++ rows ∧
          Forall (λ row, ri_recipe row = rid) rows.
Proof.
  revert st. induction l as [|e l IH]; intros st.
  { intros [= <-]. repeat split. exists []. by rewrite app_nil_r. }
  unfold RecipeDetailSerializer.create_ingredients. cbn [for_each].
  intros (st1 & Hstep & Hloop)%bind_Ok.
  destruct (amount e) as [a|]; [|done].
  unfold RecipeIngredient_create in Hstep.
  destruct (recipe_exists st rid); [|done].
  destruct (ingredient_exists st (ingredient e)); [|done].
  case_bool_decide; [done|]. injection Hstep as <-.
  apply IH in Hloop as (-> & -> & -> & -> & -> & rows & -> & Hrows).
  repeat split. eexists (_ :: rows). cbn [tbl_recipe_ingredient with_recipe_ingredient].
  split; [by rewrite <- app_assoc|]. by constructor.
Qed.

Lemma tbl_recipe_save (st : Store) (r : Recipe) :
  r ∈ tbl_recipe (save st r) ∧
  (∀ x, x ∈ tbl_recipe (save st r) → rec_id x = rec_id r → x = r) ∧
  filter (λ x, rec_id x ≠ rec_id r) (tbl_recipe (save st r)) =
    filter (λ x, rec_id x ≠ rec_id r) (tbl_recipe st).
Proof.
  unfold save. case_bool_decide as Hex; cbn [tbl_recipe with_recipe].
  - split; [|split].
    + apply Exists_exists in Hex as (x & Hin & Hx). apply list_elem_of_fmap.
      exists x. by rewrite bool_decide_eq_true_2.
    + intros x (y & -> & Hy)%list_elem_of_fmap. by case_bool_decide.
    + clear Hex. induction (tbl_recipe st) as [|y l IH]; [done|].
      rewrite fmap_cons, !filter_cons, IH. case_bool_decide as Hy.
      * by rewrite !decide_False by (by intros ?).
      * by rewrite !decide_True by done.
  - split; [|split].
    + apply elem_of_app. right. left.
    + intros x [Hin | ->%list_elem_of_singleton]%elem_of_app Hx; [|done].
      exfalso. apply Hex, Exists_exists. eauto.
    + rewrite filter_app, filter_cons_False, filter_nil, app_nil_r by (by intros ?). done.
Qed.

(** ** Recipe update, continued *)

(** X5. When an update supplies tags, the recipe is afterwards associated
    with exactly the supplied tags, whatever it had before; when it
    supplies none, its associations stay. *)
Theorem update_replaces_tags (st st' : Store) (instance instance' : Recipe)
    (data : RecipeData) :
  RecipeDetailSerializer.update st instance data = Ok (st', instance') →
  ∀ t, t ∈ tags st' (rec_id instance) ↔
       match d_tags data with
       | Some ts => t ∈ ts
       | None => t ∈ tags st (rec_id instance)
       end.
Proof.
  unfold RecipeDetailSerializer.update. cbv zeta. cbn [rec_id].
  intros Hupdate t.
  assert (∀ s, tbl_recipe_tags s =
               tbl_recipe_tags (match d_tags data with
                                | Some ts => tags_set st (rec_id instance) ts
                                | None => st
                                end) →
               t ∈ tags s (rec_id instance) ↔
               match d_tags data with
               | Some ts => t ∈ ts
               | None => t ∈ tags st (rec_id instance)
               end) as Hs.
  { intros s Hs. rewrite tags_elem, Hs. destruct (d_tags data) as [ts|].
    - rewrite tags_set_elem. by rewrite decide_True.
    - by rewrite tags_elem. }
  assert (∀ r ts, tbl_recipe_tags (tags_set (save st r) (rec_id instance) ts) =
                  tbl_recipe_tags (tags_set st (rec_id instance) ts)) as Hsave.
  { intros r ts. unfold tags_set, tags, save. by case_bool_decide. }
  assert (∀ r, tbl_recipe_tags (save st r) = tbl_recipe_tags st) as Hsave'.
  { intros r. unfold save. by case_bool_decide. }
  destruct (d_ingredients_data data) as [l|].
  - apply bind_Ok in Hupdate as (st1 & Hloop & [= <- _]).
    apply create_ingredients_frame in Hloop as (_ & _ & Htags & _).
    apply Hs. rewrite Htags. cbn [tbl_recipe_tags with_recipe_ingredient].
    destruct (d_tags data); [apply Hsave | apply Hsave'].
  - injection Hupdate as <- _. apply Hs.
    destruct (d_tags data); [apply Hsave | apply Hsave'].
Qed.

Lemma update_replaces_tags_witness :
  ∃ st' instance',
    RecipeDetailSerializer.update sample R1 new_cake = Ok (st', instance') ∧
    (2 ∈ tags st' (rec_id R1) ↔ 2 ∈ [2; 1]).
Proof.
  eexists _, _. split; [by vm_compute|].
  apply (update_replaces_tags sample _ R1 _ new_cake eq_refl 2).
Defined.

(** X6. An update leaves every other recipe alone: its row, its tag
    associations and its RecipeIngredient rows are as before, and so are
    the ingredient, favorite and rating tables. *)
Theorem update_touches_one_recipe (st st' : Store) (instance instance' : Recipe)
    (data : RecipeData) :
  RecipeDetailSerializer.update st instance data = Ok (st', instance') →
  tbl_ingredient st' = tbl_ingredient st ∧
  tbl_favorite st' = tbl_favorite st ∧
  tbl_rating st' = tbl_rating st ∧
  filter (λ x, rec_id x ≠ rec_id instance) (tbl_recipe st') =
    filter (λ x, rec_id x ≠ rec_id instance) (tbl_recipe st) ∧
  ∀ other, other ≠ rec_id instance →
    recipe_ingredients st' other = recipe_ingredients st other ∧
    ∀ t, t ∈ tags st' other ↔ t ∈ tags st other.
Proof.
  unfold RecipeDetailSerializer.update. cbv zeta. cbn [rec_id].
  set (r := {| rec_id := rec_id instance; rec_author := rec_author instance;
               rec_title := default (rec_title instance) (d_title data);
               rec_description := default (rec_description instance) (d_description data);
               rec_steps := default (rec_steps instance) (d_steps data);
               rec_time_minutes :=
                 default (rec_time_minutes instance) (d_time_minutes data) |}).
  set (st1 := match d_tags data with
              | Some ts => tags_set (save st r) (rec_id instance) ts
              | None => save st r
              end).
  assert (tbl_ingredient st1 = tbl_ingredient st ∧ tbl_favorite st1 = tbl_favorite st ∧
          tbl_rating st1 = tbl_rating st ∧
          tbl_recipe st1 = tbl_recipe (save st r) ∧
          tbl_recipe_ingredient st1 = tbl_recipe_ingredient st ∧
          ∀ other t, other ≠ rec_id instance → t ∈ tags st1 other ↔ t ∈ tags st other)
    as (Hing & Hfav & Hrat & Hrec & Hrows & Htags).
  { subst st1. destruct (d_tags data) as [ts|].
    - repeat split; try (unfold tags_set, save; by case_bool_decide).
      + intros Ht. apply tags_set_tags in Ht. rewrite decide_False in Ht by done.
        revert Ht. unfold tags, save. by case_bool_decide.
      + intros Ht. apply tags_set_tags. rewrite decide_False by done.
        revert Ht. unfold tags, save. by case_bool_decide.
    - repeat split; try (unfold save; by case_bool_decide);
        unfold tags, save; by case_bool_decide. }
  pose proof (tbl_recipe_save st r) as (_ & _ & Hothers). cbn [rec_id r] in Hothers.
  destruct (d_ingredients_data data) as [l|].
  - intros (st2 & Hloop & [= <- _])%bind_Ok.
    apply create_ingredients_frame in Hloop
      as (Hing2 & Hrec2 & Htags2 & Hfav2 & Hrat2 & rows & Hrows2 & Hnew).
    cbn [tbl_ingredient tbl_recipe tbl_recipe_tags tbl_favorite tbl_rating
         tbl_recipe_ingredient with_recipe_ingredient] in *.
    rewrite Hing2, Hfav2, Hrat2, Hrec2, Hrec.
    split; [done|]. split; [done|]. split; [done|]. split; [done|].
    intros other Hother. split.
    + unfold recipe_ingredients. rewrite Hrows2, filter_app, Hrows.
      rewrite list_filter_filter.
      rewrite (filter_none _ rows), app_nil_r.
      * apply list_filter_iff. intros row. split; [by intros [? _] | intros ->; by split].
      * intros row Hin Hrow. rewrite Forall_forall in Hnew. apply Hnew in Hin. congruence.
    + intros t. rewrite tags_elem, Htags2, <- tags_elem. by apply Htags.
  - intros [= <- _]. rewrite Hrec.
    split; [done|]. split; [done|]. split; [done|]. split; [done|].
    intros other Hother. split.
    + unfold recipe_ingredients. by rewrite Hrows.
    + intros t. by apply Htags.
Qed.

Lemma update_touches_one_recipe_witness :
  ∃ st' instance',
    RecipeDetailSerializer.update sample R1 egg_and_flour = Ok (st', instance') ∧
    recipe_ingredients st' 2 = recipe_ingredients sample 2.
Proof.
  eexists _, _. split; [by vm_compute|].
  apply (update_touches_one_recipe sample _ R1 _ egg_and_flour eq_refl). done.
Defined.

(** X7. An update stores the scalar fields: the returned recipe keeps the
    key and the author, has the payload's value in every supplied field and
    the previous value in every other one, is in the recipe table
    afterwards, and is the only stored row with its key. *)
Theorem update_stores_scalars (st st' : Store) (instance instance' : Recipe)
    (data : RecipeData) :
  RecipeDetailSerializer.update st instance data = Ok (st', instance') →
  rec_id instance' = rec_id instance ∧
  rec_author instance' = rec_author instance ∧
  rec_title instance' = default (rec_title instance) (d_title data) ∧
  rec_description instance' = default (rec_description instance) (d_description data) ∧
  rec_steps instance' = default (rec_steps instance) (d_steps data) ∧
  rec_time_minutes instance' = default (rec_time_minutes instance) (d_time_minutes data) ∧
  instance' ∈ tbl_recipe st' ∧
  ∀ x, x ∈ tbl_recipe st' → rec_id x = rec_id instance → x = instance'.
Proof.
  unfold RecipeDetailSerializer.update. cbv zeta. cbn [rec_id].
  set (r := {| rec_id := rec_id instance; rec_author := rec_author instance;
               rec_title := default (rec_title instance) (d_title data);
               rec_description := default (rec_description instance) (d_description data);
               rec_steps := default (rec_steps instance) (d_steps data);
               rec_time_minutes :=
                 default (rec_time_minutes instance) (d_time_minutes data) |}).
  pose proof (tbl_recipe_save st r) as (Hin & Honly & _). cbn [rec_id r] in Honly.
  assert (tbl_recipe (match d_tags data with
                      | Some ts => tags_set (save st r) (rec_id instance) ts
                      | None => save st r
                      end) = tbl_recipe (save st r)) as Hrec
    by (by destruct (d_tags data)).
  destruct (d_ingredients_data data) as [l|].
  - intros (st2 & Hloop & [= <- <-])%bind_Ok.
    apply create_ingredients_frame in Hloop as (_ & Hrec2 & _).
    cbn [tbl_recipe with_recipe_ingredient] in Hrec2. rewrite Hrec2, Hrec.
    by repeat split.
  - intros [= <- <-]. rewrite Hrec. by repeat split.
Qed.

Lemma update_stores_scalars_witness :
  ∃ st' instance',
    RecipeDetailSerializer.update sample R1 title_only = Ok (st', instance') ∧
    rec_title instance' = "Sponge cake" ∧ rec_time_minutes instance' = 60 ∧
    instance' ∈ tbl_recipe st'.
Proof.
  eexists _, _. split; [by vm_compute|].
  pose proof (update_stores_scalars sample _ R1 _ title_only eq_refl)
    as (_ & _ & Ht & _ & _ & Hm & Hin & _).
  by repeat split.
Defined.

(** ** Recipe creation *)

Lemma recipe_integrity_fresh (st : Store) (pk : Z) :
  recipe_integrity st → recipe_exists st pk = false →
  (∀ row, row ∈ tbl_recipe_ingredient st → ri_recipe row ≠ pk) ∧
  (∀ t, (pk, t) ∉ tbl_recipe_tags st).
Proof.
  intros [Hrows Htags] Hpk. rewrite Forall_forall in Hrows.
  rewrite Forall_forall in Htags. split.
  - intros row Hin Heq. apply Hrows in Hin. congruence.
  - intros t Hin. apply Htags in Hin. simpl in Hin. congruence.
Qed.

(** X8. Creating a recipe from a payload that validates, under a key that
    is not in use, succeeds: the new recipe is appended to the recipe table
    with the given author, it is associated with exactly the payload's
    tags, and its RecipeIngredient rows are one per payload entry, in
    order, with the payload's amounts. *)
Theorem create_stores_payload (st : Store) (pk author time_minutes : Z) (data : RecipeData) :
  recipe_integrity st →
  recipe_exists st pk = false →
  RecipeDetailSerializer.validate st data = Ok data →
  d_time_minutes data = Some time_minutes →
  ∃ st' recipe,
    is_valid_then_create st pk author data = Ok (st', recipe) ∧
    rec_id recipe = pk ∧ rec_author recipe = author ∧
    rec_time_minutes recipe = time_minutes ∧
    tbl_recipe st' = tbl_recipe st ++ [recipe] ∧
    (∀ t, t ∈ tags st' pk ↔ t ∈ default [] (d_tags data)) ∧
    row_amounts (recipe_ingredients st' pk) =
      payload_amounts (default [] (d_ingredients_data data)).
Proof.
  intros Hint Hfresh Hvalid Htime.
  destruct (recipe_integrity_fresh st pk Hint Hfresh) as [Hrows Htags].
  unfold is_valid_then_create. rewrite Hvalid. cbn [bind].
  apply validate_Ok_inv in Hvalid as (_ & ts & l & Hts & Htsne & Hl & _ & Hnd & Hok).
  unfold RecipeDetailSerializer_create, Recipe_create. rewrite Htime, Hfresh, Hts, Hl.
  cbn [bind fst snd from_option id rec_id]. cbv zeta.
  destruct ts as [|t0 ts0]; [done|].
  set (recipe := {| rec_id := pk; rec_author := author;
                    rec_title := default "" (d_title data);
                    rec_description := default "" (d_description data);
                    rec_steps := default [] (d_steps data);
                    rec_time_minutes := time_minutes |}).
  set (st2 := tags_set (with_recipe st (tbl_recipe st ++ [recipe])) pk (t0 :: ts0)).
  destruct (create_ingredients_rows pk l st2)
    as (st' & rows & Hloop & Htbl & Hnew & Hamounts).
  - apply bool_decide_eq_true, Exists_exists. exists recipe. split; [|done].
    subst st2. cbn [tbl_recipe tags_set with_recipe_tags with_recipe].
    apply elem_of_app. right. left.
  - eapply Forall_impl; [apply Hok|]. intros e He.
    by apply entry_ok_insertable in He as [? ?].
  - done.
  - intros row Hin Hrow. by apply Hrows in Hin.
  - exists st', recipe. rewrite Hloop. cbn [bind].
    apply create_ingredients_frame in Hloop as (_ & Hrec & Htags' & _).
    split; [done|]. split; [done|]. split; [done|]. split; [done|]. split; [done|].
    split.
    + intros t. rewrite tags_elem, Htags'. subst st2. rewrite tags_set_elem.
      by rewrite decide_True.
    + unfold recipe_ingredients. rewrite Htbl, filter_app.
      subst st2. cbn [tbl_recipe_ingredient tags_set with_recipe_tags with_recipe].
      rewrite filter_none, app_nil_l by (intros row Hin Hrow; by apply Hrows in Hin).
      rewrite <- Hamounts. f_equal. clear -Hnew.
      induction Hnew as [|row rows Hr _ IH]; [done|].
      by rewrite filter_cons_True, IH.
Qed.

Lemma sample_recipe_integrity : recipe_integrity sample.
Proof. split; by repeat constructor. Qed.

Lemma create_stores_payload_witness :
  recipe_integrity sample ∧ recipe_exists sample 4 = false ∧
  RecipeDetailSerializer.validate sample new_cake = Ok new_cake ∧
  d_time_minutes new_cake = Some 45 ∧
  ∃ st' recipe,
    is_valid_then_create sample 4 7 new_cake = Ok (st', recipe) ∧
    row_amounts (recipe_ingredients st' 4) = [(3, Some 300); (1, Some 50)].
Proof.
  split; [apply sample_recipe_integrity|]. split; [by vm_compute|].
  split; [by vm_compute|]. split; [reflexivity|].
  destruct (create_stores_payload sample 4 7 45 new_cake sample_recipe_integrity)
    as (st' & recipe & Hcreate & _ & _ & _ & _ & _ & Hrows);
    [by vm_compute | by vm_compute | reflexivity |].
  by exists st', recipe.
Defined.

(** ** Favorites *)

Section favorites.
Variable int : string → option Z.

(** The two ways [favorite] answers for an authenticated user and a
    resolved recipe. *)
Lemma favorite_Ok_inv (st st' : Store) (request : Request) (u pk : Z) (recipe : Recipe)
    (response : Response) :
  user request = Some u →
  RecipeViewSet.get_object int st request pk = Ok recipe →
  RecipeViewSet.favorite int st request pk = Ok (st', response) →
  (favorites_of st u (rec_id recipe) ≠ [] ∧ st' = st ∧ status response = 400) ∨
  (favorites_of st u (rec_id recipe) = [] ∧ status response = 201 ∧
   st' = with_favorite st
           (tbl_favorite st ++
              [{| fav_id := seq_favorite st; fav_user := u; fav_recipe := rec_id recipe |}])
           (seq_favorite st + 1)).
Proof.
  intros Hu Hobj. unfold RecipeViewSet.favorite. rewrite Hu, Hobj. cbn [bind].
  case_bool_decide as Hfav.
  - intros [= <- <-]. by left.
  - unfold Favorite_create. destruct (recipe_exists st (rec_id recipe)); [|done].
    case_bool_decide as Hnone; [|done]. cbn [bind]. intros [= <- <-]. by right.
Qed.

(** X9. After a favorite request that is answered, whether with 201 or with
    the refusal "Already in favorites", the recipe shows as favorited to
    that user, and the favorites of every other (user, recipe) pair are as
    before. *)
Theorem favorite_sets_flag (st st' : Store) (request : Request) (u pk : Z)
    (recipe : Recipe) (response : Response) :
  user request = Some u →
  RecipeViewSet.get_object int st request pk = Ok recipe →
  RecipeViewSet.favorite int st request pk = Ok (st', response) →
  get_is_favorited st' (Some request) recipe = true ∧
  ∀ u' rid', (u', rid') ≠ (u, rec_id recipe) →
    favorites_of st' u' rid' = favorites_of st u' rid'.
Proof.
  intros Hu Hobj Hfav. unfold get_is_favorited. rewrite Hu.
  destruct (favorite_Ok_inv _ _ _ _ _ _ _ Hu Hobj Hfav)
    as [(Hsome & -> & _) | (Hnone & _ & ->)].
  - split; [by apply bool_decide_eq_true|done].
  - unfold favorites_of. cbn [tbl_favorite with_favorite]. split.
    + apply bool_decide_eq_true. rewrite filter_app, filter_cons_True by done.
      by destruct (filter _ (tbl_favorite st)).
    + intros u' rid' Hne. rewrite filter_app, filter_cons_False, filter_nil, app_nil_r;
        [done|]. simpl. intros [<- <-]. done.
Qed.

(** X10. [favorite] keeps the uniqueness of (user, recipe) in the Favorite
    table: it never stores a second favorite of a pair. *)
Theorem favorite_keeps_unique (st st' : Store) (request : Request) (u pk : Z)
    (recipe : Recipe) (response : Response) :
  user request = Some u →
  RecipeViewSet.get_object int st request pk = Ok recipe →
  RecipeViewSet.favorite int st request pk = Ok (st', response) →
  unique_favorites st →
  unique_favorites st'.
Proof.
  intros Hu Hobj Hfav Huniq.
  destruct (favorite_Ok_inv _ _ _ _ _ _ _ Hu Hobj Hfav)
    as [(Hsome & -> & _) | (Hnone & _ & ->)]; [done|].
  unfold unique_favorites in *. cbn [tbl_favorite with_favorite].
  rewrite fmap_app. apply NoDup_app. split; [done|]. split; [|apply NoDup_singleton].
  intros p (f & -> & Hin)%list_elem_of_fmap Hp%list_elem_of_singleton.
  simpl in Hp. injection Hp as Hfu Hfr.
  assert (f ∈ favorites_of st u (rec_id recipe)) as Hf by (by apply list_elem_of_filter).
  rewrite Hnone in Hf. by apply elem_of_nil in Hf.
Qed.

(** X11. Un-favoriting undoes favoriting: when the keys in the Favorite
    table are below its sequence, a recipe the user had not favorited is
    favorited with 201 and then un-favorited with 204, and the Favorite
    table is the one before the two requests. *)
Theorem favorite_then_unfavorite (st : Store) (request : Request) (u pk : Z)
    (recipe : Recipe) :
  user request = Some u →
  qp_favorited request = None →
  RecipeViewSet.get_object int st request pk = Ok recipe →
  favorites_of st u (rec_id recipe) = [] →
  Forall (λ f, fav_id f < seq_favorite st) (tbl_favorite st) →
  ∃ st1 st2,
    RecipeViewSet.favorite int st request pk = Ok (st1, {| data := NoData; status := 201 |}) ∧
    RecipeViewSet.unfavorite int st1 request pk =
      Ok (st2, {| data := NoData; status := 204 |}) ∧
    tbl_favorite st2 = tbl_favorite st ∧
    get_is_favorited st2 (Some request) recipe = false.
Proof.
  intros Hu Hq Hobj Hnone Hseq.
  pose proof (get_object_stored int _ _ _ _ Hobj) as Hexists.
  set (row := {| fav_id := seq_favorite st; fav_user := u; fav_recipe := rec_id recipe |}).
  set (st1 := with_favorite st (tbl_favorite st ++ [row]) (seq_favorite st + 1)).
  assert (RecipeViewSet.get_object int st1 request pk = Ok recipe) as Hobj1.
  { revert Hobj. unfold RecipeViewSet.get_object, RecipeViewSet.get_queryset.
    by rewrite Hq. }
  assert (favorites_of st1 u (rec_id recipe) = [row]) as Hone.
  { unfold favorites_of. subst st1. cbn [tbl_favorite with_favorite].
    unfold favorites_of in Hnone.
    by rewrite filter_app, Hnone, filter_cons_True, filter_nil. }
  assert (filter (λ f, fav_id f ≠ fav_id row) (tbl_favorite st1) = tbl_favorite st) as Hdel.
  { subst st1. cbn [tbl_favorite with_favorite].
    rewrite filter_app, filter_cons_False, filter_nil, app_nil_r by (by intros ?).
    clear -Hseq. induction Hseq as [|f l Hf _ IH]; [done|].
    rewrite filter_cons_True, IH; [done|]. simpl. lia. }
  exists st1, (with_favorite st1 (tbl_favorite st) (seq_favorite st1)).
  split; [|split; [|split]].
  - unfold RecipeViewSet.favorite. rewrite Hu, Hobj. cbn [bind].
    rewrite bool_decide_eq_false_2 by (by intros ?).
    unfold Favorite_create. by rewrite Hexists, bool_decide_eq_true_2.
  - unfold RecipeViewSet.unfavorite. rewrite Hu, Hobj1. cbn [bind].
    by rewrite Hone, Hdel.
  - done.
  - unfold get_is_favorited. rewrite Hu. apply bool_decide_eq_false.
    intros Hne. apply Hne. unfold favorites_of in *. by cbn [tbl_favorite with_favorite].
Qed.

(** X12. An un-favorite request that is answered removes the favorite: the
    recipe no longer shows as favorited to that user, and when the keys of
    the Favorite table are distinct the favorites of every other
    (user, recipe) pair are as before. *)
Theorem unfavorite_clears_flag (st st' : Store) (request : Request) (u pk : Z)
    (recipe : Recipe) (response : Response) :
  user request = Some u →
  RecipeViewSet.get_object int st request pk = Ok recipe →
  RecipeViewSet.unfavorite int st request pk = Ok (st', response) →
  status response = 204 ∧
  get_is_favorited st' (Some request) recipe = false ∧
  (NoDup (fav_id <$> tbl_favorite st) →
   ∀ u' rid', (u', rid') ≠ (u, rec_id recipe) →
     favorites_of st' u' rid' = favorites_of st u' rid').
Proof.
  intros Hu Hobj. unfold RecipeViewSet.unfavorite. rewrite Hu, Hobj. cbn [bind].
  destruct (favorites_of st u (rec_id recipe)) as [|f [|f' fs]] eqn:Hfav; try done.
  intros [= <- <-]. split; [done|].
  assert (f ∈ favorites_of st u (rec_id recipe)) as Hf by (rewrite Hfav; left).
  apply list_elem_of_filter in Hf as [[Hfu Hfr] Hfin].
  split.
  - unfold get_is_favorited. rewrite Hu. apply bool_decide_eq_false.
    intros Hne. apply Hne. unfold favorites_of. cbn [tbl_favorite with_favorite].
    rewrite list_filter_filter. apply filter_none. intros g Hg [[Hgu Hgr] Hgid].
    assert (g ∈ favorites_of st u (rec_id recipe)) as Hg'
      by (by apply list_elem_of_filter).
    rewrite Hfav in Hg'. apply list_elem_of_singleton in Hg'. by subst.
  - intros Hnd u' rid' Hne. unfold favorites_of. cbn [tbl_favorite with_favorite].
    rewrite list_filter_filter. apply filter_ext_in. intros g Hg.
    split; [by intros [? _]|]. intros [Hgu Hgr]. split; [done|].
    intros Heq. apply Hne.
    assert (g = f) as ->; [|by rewrite <- Hgu, <- Hgr, Hfu, Hfr].
    clear -Hnd Hg Hfin Heq. induction (tbl_favorite st) as [|x l IH]; [by apply elem_of_nil in Hg|].
    rewrite fmap_cons in Hnd. apply NoDup_cons in Hnd as [Hx Hnd].
    apply elem_of_cons in Hg as [->|Hg], Hfin as [->|Hfin]; try done.
    + exfalso. apply Hx. rewrite Heq. by apply list_elem_of_fmap_2.
    + exfalso. apply Hx. rewrite <- Heq. by apply list_elem_of_fmap_2.
    + by apply IH.
Qed.

End favorites.

Lemma favorite_sets_flag_witness :
  ∃ st',
    RecipeViewSet.favorite (λ _, None) sample (as_user 7) 3 =
      Ok (st', {| data := NoData; status := 201 |}) ∧
    get_is_favorited st' (Some (as_user 7)) R3 = true.
Proof.
  eexists. split; [by vm_compute|].
  eapply (proj1 (favorite_sets_flag (λ _, None) sample _ (as_user 7) 7 3 R3 _
                   eq_refl eq_refl eq_refl)).
Defined.

Lemma favorite_keeps_unique_witness :
  unique_favorites sample ∧
  ∃ st',
    RecipeViewSet.favorite (λ _, None) sample (as_user 7) 3 =
      Ok (st', {| data := NoData; status := 201 |}) ∧
    unique_favorites st'.
Proof.
  split; [apply sample_unique_favorites|]. eexists. split; [by vm_compute|].
  eapply (favorite_keeps_unique (λ _, None) sample _ (as_user 7) 7 3 R3 _
            eq_refl eq_refl eq_refl sample_unique_favorites).
Defined.

Lemma favorite_then_unfavorite_witness :
  ∃ st1 st2,
    RecipeViewSet.favorite (λ _, None) sample (as_user 7) 3 =
      Ok (st1, {| data := NoData; status := 201 |}) ∧
    RecipeViewSet.unfavorite (λ _, None) st1 (as_user 7) 3 =
      Ok (st2, {| data := NoData; status := 204 |}) ∧
    tbl_favorite st2 = tbl_favorite sample ∧
    get_is_favorited st2 (Some (as_user 7)) R3 = false.
Proof.
  apply (favorite_then_unfavorite (λ _, None) sample (as_user 7) 7 3 R3);
    [reflexivity | reflexivity | by vm_compute | by vm_compute |].
  repeat constructor.
Defined.

Lemma unfavorite_clears_flag_witness :
  ∃ st',
    RecipeViewSet.unfavorite (λ _, None) sample (as_user 7) 1 =
      Ok (st', {| data := NoData; status := 204 |}) ∧
    get_is_favorited st' (Some (as_user 7)) R1 = false.
Proof.
  eexists. split; [by vm_compute|].
  eapply (proj1 (proj2 (unfavorite_clears_flag (λ _, None) sample _ (as_user 7) 7 1 R1 _
                          eq_refl eq_refl eq_refl))).
Defined.

(** ** Ratings *)

Lemma ratings_of_unique (st : Store) (u rid : Z) :
  unique_ratings st → (length (ratings_of st u rid) ≤ 1)%nat.
Proof.
  intros Huniq. unfold ratings_of.
  rewrite (list_filter_iff _ (λ r, (rt_user r, rt_recipe r) = (u, rid)))
    by (intros r; split; [by intros [-> ->] | by intros [= -> ->]]).
  by apply filter_unique.
Qed.

(** The rating table after the row of one (user, recipe) pair was replaced. *)
Lemma replace_rating (l : list Rating) (u rid v : Z) :
  let new := {| rt_user := u; rt_recipe := rid; rt_value := v |} in
  let l' := (λ r, if bool_decide (rt_user r = u ∧ rt_recipe r = rid) then new else r) <$> l in
  filter (λ r, rt_user r = u ∧ rt_recipe r = rid) l' =
    ((λ _, new) <$> filter (λ r, rt_user r = u ∧ rt_recipe r = rid) l) ∧
  (λ r, (rt_user r, rt_recipe r)) <$> l' = (λ r, (rt_user r, rt_recipe r)) <$> l ∧
  (∀ u' rid', (u', rid') ≠ (u, rid) →
     filter (λ r, rt_user r = u' ∧ rt_recipe r = rid') l' =
     filter (λ r, rt_user r = u' ∧ rt_recipe r = rid') l) ∧
  (1 ≤ v ≤ 5 → Forall (λ r, 1 ≤ rt_value r ≤ 5) l → Forall (λ r, 1 ≤ rt_value r ≤ 5) l').
Proof.
  intros new l'. subst l'. induction l as [|r l (IH1 & IH2 & IH3 & IH4)].
  { repeat split; try done. }
  rewrite !fmap_cons. split; [|split; [|split]].
  - rewrite !filter_cons. case_bool_decide as Hr.
    + rewrite !decide_True by done. by rewrite fmap_cons, IH1.
    + rewrite !decide_False by done. by rewrite IH1.
  - rewrite IH2. f_equal. case_bool_decide as Hr; [|done]. simpl. by destruct Hr as [-> ->].
  - intros u' rid' Hne. rewrite !filter_cons, IH3 by done.
    case_bool_decide as Hr; [|done].
    rewrite !decide_False; [done| |].
    + destruct Hr as [-> ->]. intros [<- <-]. done.
    + simpl. intros [<- <-]. done.
  - intros Hv [Hr Hl]%Forall_cons. constructor; [|by apply IH4].
    by case_bool_decide.
Qed.

Section ratings.
Variable int : string → option Z.

(** X13. Posting a rating whose value is missing or false (null, zero, the
    empty string, an empty list), or whose conversion to an integer lies
    outside 1..5, is refused with status 400 and changes nothing, whoever
    asks; a value that cannot be converted makes the action raise what the
    conversion raises.  The float 5.5 is not refused: it converts to 5. *)
Theorem rating_out_of_range_refused (st : Store) (request : Request) (pk : Z)
    (recipe : Recipe) (value : Value) :
  RecipeViewSet.get_object int st request pk = Ok recipe →
  (truthy value = false →
   RecipeViewSet_rating int st request POST pk value =
     Ok (st, RatingRefused "Value must be between 1 and 5" 400)) ∧
  (∀ n, truthy value = true → to_int int value = Ok n → ¬ (1 ≤ n ≤ 5) →
        RecipeViewSet_rating int st request POST pk value =
          Ok (st, RatingRefused "Value must be between 1 and 5" 400)) ∧
  (∀ e, truthy value = true → to_int int value = Raise e →
        RecipeViewSet_rating int st request POST pk value = Raise e) ∧
  (truthy five_and_a_half = true ∧ to_int int five_and_a_half = Ok 5).
Proof.
  intros Hobj. unfold RecipeViewSet_rating. rewrite Hobj. cbn [bind].
  split; [|split; [|split]].
  - by intros ->.
  - intros n -> -> Hn. cbn [negb bind].
    destruct (bool_decide (n < 1) || bool_decide (n > 5)) eqn:E; [done|].
    apply orb_false_iff in E as [H1 H5]. apply bool_decide_eq_false in H1, H5. lia.
  - by intros e -> ->.
  - split; by vm_compute.
Qed.

(** X14. Posting, as an authenticated user, a rating whose value is true
    and converts to an integer in 1..5 always succeeds on a Rating table
    with at most one row per (user, recipe): afterwards that user has
    exactly one rating of that recipe, with the converted value, whether or
    not one existed before; the ratings of every other pair are as before;
    and the table still has at most one row per pair and, if it had, only
    values in 1..5.  The same request of an anonymous caller raises
    [TypeError]. *)
Theorem rating_upsert (st : Store) (request : Request) (pk n : Z) (recipe : Recipe)
    (value : Value) :
  RecipeViewSet.get_object int st request pk = Ok recipe →
  truthy value = true →
  to_int int value = Ok n →
  1 ≤ n ≤ 5 →
  (∀ u, user request = Some u →
     unique_ratings st →
     ∃ st',
       RecipeViewSet_rating int st request POST pk value = Ok (st', RatingSaved n 201) ∧
       ratings_of st' u (rec_id recipe) =
         [{| rt_user := u; rt_recipe := rec_id recipe; rt_value := n |}] ∧
       (∀ u' rid', (u', rid') ≠ (u, rec_id recipe) →
          ratings_of st' u' rid' = ratings_of st u' rid') ∧
       unique_ratings st' ∧
       (ratings_in_range st → ratings_in_range st')) ∧
  (user request = None →
   RecipeViewSet_rating int st request POST pk value = Raise TypeError).
Proof.
  intros Hobj Htrue Hn Hv. unfold RecipeViewSet_rating.
  rewrite Hobj, Htrue, Hn. cbn [bind negb].
  rewrite !bool_decide_eq_false_2 by lia. cbn [orb].
  split; [|by intros ->].
  intros u -> Huniq.
  pose proof (ratings_of_unique st u (rec_id recipe) Huniq) as Hlen.
  destruct (ratings_of st u (rec_id recipe)) as [|r [|r' rs]] eqn:Hold;
    simpl in Hlen; [| |lia].
  - eexists. split; [done|]. unfold ratings_of, unique_ratings, ratings_in_range in *.
    cbn [tbl_rating with_rating]. split; [|split; [|split]].
    + by rewrite filter_app, Hold, filter_cons_True, filter_nil.
    + intros u' rid' Hne. rewrite filter_app, filter_cons_False, filter_nil, app_nil_r;
        [done|]. simpl. intros [<- <-]. done.
    + rewrite fmap_app. apply NoDup_app. split; [done|]. split; [|apply NoDup_singleton].
      intros p (x & -> & Hin)%list_elem_of_fmap Hp%list_elem_of_singleton.
      simpl in Hp. injection Hp as Hxu Hxr.
      assert (x ∈ filter (λ r, rt_user r = u ∧ rt_recipe r = rec_id recipe) (tbl_rating st))
        as Hx by (by apply list_elem_of_filter).
      rewrite Hold in Hx. by apply elem_of_nil in Hx.
    + intros Hrange. apply Forall_app. split; [done|]. apply Forall_singleton. done.
  - eexists. split; [done|].
    destruct (replace_rating (tbl_rating st) u (rec_id recipe) n) as (H1 & H2 & H3 & H4).
    unfold ratings_of, unique_ratings, ratings_in_range in *. cbn [tbl_rating with_rating].
    split; [|split; [|split]].
    + by rewrite H1, Hold.
    + done.
    + by rewrite H2.
    + by apply H4.
Qed.

(** X15. Deleting a rating as an authenticated user: when the user has no
    rating of the recipe the request fails as not found; a request that is
    answered leaves the user without a rating of the recipe and the ratings
    of every other pair as they were.  The request of an anonymous caller
    raises [TypeError]. *)
Theorem rating_delete (st : Store) (request : Request) (pk : Z) (recipe : Recipe) :
  RecipeViewSet.get_object int st request pk = Ok recipe →
  (∀ u, user request = Some u →
     (ratings_of st u (rec_id recipe) = [] →
      ∀ value, RecipeViewSet_rating int st request DELETE pk value = Raise Http404) ∧
     (∀ st' response value,
        RecipeViewSet_rating int st request DELETE pk value = Ok (st', response) →
        response = RatingDeleted 204 ∧
        ratings_of st' u (rec_id recipe) = [] ∧
        ∀ u' rid', (u', rid') ≠ (u, rec_id recipe) →
          ratings_of st' u' rid' = ratings_of st u' rid')) ∧
  (user request = None →
   ∀ value, RecipeViewSet_rating int st request DELETE pk value = Raise TypeError).
Proof.
  intros Hobj. unfold RecipeViewSet_rating. rewrite Hobj. cbn [bind].
  split; [|by intros ->].
  intros u ->. split.
  - by intros ->.
  - intros st' response _.
    destruct (ratings_of st u (rec_id recipe)) as [|r [|r' rs]]; try done.
    intros [= <- <-]. split; [done|]. unfold ratings_of. cbn [tbl_rating with_rating].
    split.
    + rewrite list_filter_filter. apply filter_none. by intros x _ [? ?].
    + intros u' rid' Hne. rewrite list_filter_filter. apply list_filter_iff.
      intros x. split; [by intros [? _]|]. intros [Hu Hr]. split; [done|].
      intros [Hxu Hxr]. apply Hne. by rewrite <- Hu, <- Hr, Hxu, Hxr.
Qed.

End ratings.

Lemma sample_unique_ratings : unique_ratings sample.
Proof. unfold unique_ratings. apply (bool_decide_unpack _). by vm_compute. Qed.

Lemma rating_out_of_range_refused_witness :
  RecipeViewSet.get_object (λ _, None) sample anonymous 1 = Ok R1 ∧
  truthy (VInt 6) = true ∧ to_int (λ _, None) (VInt 6) = Ok 6 ∧ ¬ (1 ≤ 6 ≤ 5) ∧
  RecipeViewSet_rating (λ _, None) sample anonymous POST 1 (VInt 6) =
    Ok (sample, RatingRefused "Value must be between 1 and 5" 400) ∧
  truthy (VStr "five") = true ∧ to_int (λ _, None) (VStr "five") = Raise ValueError ∧
  RecipeViewSet_rating (λ _, None) sample (as_user 7) POST 1 (VStr "five") =
    Raise ValueError.
Proof.
  split; [by vm_compute|]. split; [reflexivity|]. split; [reflexivity|]. split; [lia|].
  split; [|split; [reflexivity|split; [reflexivity|]]].
  - apply (proj1 (proj2 (rating_out_of_range_refused (λ _, None) sample anonymous 1 R1
                           (VInt 6) ltac:(by vm_compute))) 6);
      [reflexivity | reflexivity | lia].
  - apply (proj1 (proj2 (proj2 (rating_out_of_range_refused (λ _, None) sample (as_user 7)
                                  1 R1 (VStr "five") ltac:(by vm_compute)))) ValueError);
      reflexivity.
Defined.

Lemma rating_upsert_witness :
  RecipeViewSet.get_object (λ _, None) sample (as_user 7) 1 = Ok R1 ∧
  truthy three_point_seven = true ∧ to_int (λ _, None) three_point_seven = Ok 3 ∧
  1 ≤ 3 ≤ 5 ∧ user (as_user 7) = Some 7 ∧ unique_ratings sample ∧
  ∃ st',
    RecipeViewSet_rating (λ _, None) sample (as_user 7) POST 1 three_point_seven =
      Ok (st', RatingSaved 3 201) ∧
    ratings_of st' 7 (rec_id R1) = [{| rt_user := 7; rt_recipe := 1; rt_value := 3 |}].
Proof.
  split; [by vm_compute|]. split; [by vm_compute|]. split; [by vm_compute|].
  split; [lia|]. split; [reflexivity|]. split; [apply sample_unique_ratings|].
  destruct (proj1 (rating_upsert (λ _, None) sample (as_user 7) 1 3 R1 three_point_seven
                     ltac:(by vm_compute) ltac:(by vm_compute) ltac:(by vm_compute)
                     ltac:(lia)) 7 eq_refl sample_unique_ratings)
    as (st' & Hpost & Hone & _).
  by exists st'.
Defined.

Lemma rating_delete_witness :
  RecipeViewSet.get_object (λ _, None) sample (as_user 7) 2 = Ok R2 ∧
  user (as_user 7) = Some 7 ∧
  ratings_of sample 7 (rec_id R2) = [] ∧
  RecipeViewSet_rating (λ _, None) sample (as_user 7) DELETE 2 VNone = Raise Http404.
Proof.
  split; [by vm_compute|]. split; [reflexivity|]. split; [by vm_compute|].
  apply (proj1 (proj1 (rating_delete (λ _, None) sample (as_user 7) 2 R2 ltac:(by vm_compute))
                  7 eq_refl)).
  by vm_compute.
Defined.

(** ** Average rating, continued *)




(** ** Shopping list, continued *)

Lemma total_Permutation (rows rows' : list RecipeIngredient) :
  rows ≡ₚ rows' → total rows = total rows'.
Proof.
  unfold total. induction 1 as [|row rows rows' _ IH|row row' rows|? ? ? _ IH1 _ IH2];
    rewrite ?fmap_cons; cbn [foldr]; [done | by rewrite IH | lia | by rewrite IH1].
Qed.

Lemma accumulated_Permutation (before : option Z) (rows rows' : list RecipeIngredient) :
  rows ≡ₚ rows' → accumulated before rows = accumulated before rows'.
Proof.
  intros Hperm. pose proof (total_Permutation _ _ Hperm) as Htotal.
  destruct rows as [|row rows], rows' as [|row' rows']; simpl.
  - done.
  - by apply Permutation_nil_l in Hperm.
  - by apply Permutation_nil_r in Hperm.
  - by rewrite Htotal.
Qed.

Lemma total_at_least (rows : list RecipeIngredient) :
  Forall (λ row, 10 ≤ ri_amount row) rows → rows ≠ [] → 10 ≤ total rows.
Proof.
  unfold total. intros Hrows Hne.
  assert (0 ≤ foldr Z.add 0 (ri_amount <$> rows) ∧
          (rows ≠ [] → 10 ≤ foldr Z.add 0 (ri_amount <$> rows))) as [_ H]; [|by apply H].
  clear Hne. induction Hrows as [|row rows Hrow _ [IH0 IH]]; [done|].
  rewrite fmap_cons. cbn [foldr]. split; [lia|]. intros _. lia.
Qed.

(** X17. The shopping list does not depend on the order in which the
    recipes are gone through: aggregating a permutation of a list of
    recipes gives the same mapping, and two requests whose non-empty
    identifier lists have the same members, in any order and with any
    repetitions, get the same answer. *)
Theorem shopping_list_order_irrelevant :
  (∀ (st : Store) (recipes recipes' : list Recipe),
     fk_integrity st →
     recipes ≡ₚ recipes' →
     ShoppingListSerializer.aggregate st recipes =
     ShoppingListSerializer.aggregate st recipes') ∧
  (∀ (st : Store) (request : option Request) (recipe_ids recipe_ids' : list Z),
     recipe_ids ≠ [] → recipe_ids' ≠ [] →
     (∀ i, i ∈ recipe_ids ↔ i ∈ recipe_ids') →
     ShoppingListSerializer.create st request (Some recipe_ids) =
     ShoppingListSerializer.create st request (Some recipe_ids')).
Proof.
  split.
  - intros st recipes recipes' Hfk Hperm.
    destruct (aggregate_lookup st recipes Hfk) as (m & -> & Hm).
    destruct (aggregate_lookup st recipes' Hfk) as (m' & -> & Hm').
    f_equal. apply map_eq. intros k. rewrite Hm, Hm'.
    apply accumulated_Permutation. unfold rows_with, selected_rows.
    apply filter_Permutation. by rewrite Hperm.
  - intros st [request|] ids ids' Hne Hne' Hsame; [|done].
    unfold ShoppingListSerializer.create. destruct (user request) as [u|]; [|done].
    f_equal. unfold ShoppingListSerializer.selected.
    destruct ids as [|i ids]; [done|]. destruct ids' as [|i' ids']; [done|].
    apply list_filter_iff. intros r. apply Hsame.
Qed.

Lemma shopping_list_order_irrelevant_witness :
  fk_integrity sample ∧ [R1; R2] ≡ₚ [R2; R1] ∧
  ShoppingListSerializer.aggregate sample [R1; R2] =
  ShoppingListSerializer.aggregate sample [R2; R1].
Proof.
  split; [apply sample_fk_integrity|].
  assert ([R1; R2] ≡ₚ [R2; R1]) as Hperm by apply Permutation_swap.
  split; [done|].
  by apply (proj1 shopping_list_order_irrelevant sample [R1; R2] [R2; R1] sample_fk_integrity).
Defined.

(** X18. When every stored amount is at least 0.1, every total of a
    shopping list is at least 0.1: no entry is zero or negative. *)
Theorem shopping_list_totals_at_least (st : Store) (request : option Request)
    (recipe_ids : option (list Z)) (m : gmap (string * string) Z) :
  fk_integrity st →
  amounts_in_range st →
  ShoppingListSerializer.create st request recipe_ids = Ok m →
  ∀ key v, m !! key = Some v → 10 ≤ v.
Proof.
  intros Hfk Hrange. unfold ShoppingListSerializer.create.
  destruct request as [request|]; [|done]. destruct (user request) as [u|]; [|done].
  destruct (aggregate_lookup st (ShoppingListSerializer.selected st u recipe_ids) Hfk)
    as (m' & -> & Hm'). intros [= <-] key v. rewrite Hm'. unfold accumulated.
  destruct (rows_with st key _) as [|row rows] eqn:E; [done|]. intros [= <-].
  cbn [from_option id]. assert (10 ≤ total (row :: rows)); [|simpl in *; lia].
  apply total_at_least; [|done]. rewrite <- E. apply Forall_forall.
  intros x [_ Hx%selected_rows_stored]%list_elem_of_filter.
  unfold amounts_in_range in Hrange. rewrite Forall_forall in Hrange. by apply Hrange.
Qed.

Lemma shopping_list_totals_at_least_witness :
  fk_integrity sample ∧ amounts_in_range sample ∧
  ∀ m, ShoppingListSerializer.create sample (Some (as_user 7)) (Some [1; 2]) = Ok m →
       ∀ key v, m !! key = Some v → 10 ≤ v.
Proof.
  assert (amounts_in_range sample) as Hrange
    by (unfold amounts_in_range; apply (bool_decide_unpack _); by vm_compute).
  split; [apply sample_fk_integrity|]. split; [done|]. intros m.
  by apply (shopping_list_totals_at_least sample (Some (as_user 7)) (Some [1; 2]) m
              sample_fk_integrity).
Defined.

(** ** The recipe listing and object lookup *)

Lemma sublist_filter_mono {A} (P : A → Prop) `{∀ x, Decision (P x)} (l k : list A) :
  sublist l k → sublist (filter P l) (filter P k).
Proof.
  induction 1 as [|x l k _ IH|x l k _ IH]; [done| |].
  - rewrite !filter_cons. destruct (decide (P x)); [by constructor | done].
  - rewrite filter_cons. destruct (decide (P x)); [by constructor | done].
Qed.

Section listing.
Variable int : string → option Z.

Lemma get_queryset_sublist (st : Store) (request : Request) (qs : list Recipe) :
  RecipeViewSet.get_queryset int st request = Ok qs →
  unique_favorites st →
  sublist qs (tbl_recipe st).
Proof.
  unfold RecipeViewSet.get_queryset. intros (base & Hbase & Hqs)%bind_Ok Huniq.
  assert (sublist base (tbl_recipe st)) as Hbsub.
  { destruct (qp_author request) as [a|]; [|by injection Hbase as <-].
    case_bool_decide; [|by injection Hbase as <-].
    destruct (int a); [|done]. injection Hbase as <-. apply sublist_filter. }
  destruct (qp_favorited request) as [v|], (user request) as [u|];
    try (by injection Hqs as <-).
  case_bool_decide; injection Hqs as <-; [|done].
  rewrite filter_favorites_user_unique by done.
  etrans; [apply sublist_filter | done].
Qed.

(** X19. The recipe listing.  A non-empty [author] parameter that is not a
    number raises [ValueError].  Otherwise the listing holds exactly the
    stored recipes that have the requested author, if a non-empty [author]
    is given, and that the requester has favorited, if the requester is
    authenticated and a non-empty [favorited] is given; and when the
    Favorite table has one row per (user, recipe) no recipe is listed
    twice that is stored once. *)
Theorem recipe_listing (st : Store) (request : Request) :
  (∀ a, qp_author request = Some a → a ≠ "" → int a = None →
        RecipeViewSet.get_queryset int st request = Raise ValueError) ∧
  (∀ qs, RecipeViewSet.get_queryset int st request = Ok qs →
     (∀ r, r ∈ qs ↔
           r ∈ tbl_recipe st ∧
           (∀ a, qp_author request = Some a → a ≠ "" → int a = Some (rec_author r)) ∧
           (∀ u v, user request = Some u → qp_favorited request = Some v → v ≠ "" →
                   favorited_by st u r)) ∧
     (unique_favorites st → sublist qs (tbl_recipe st))).
Proof.
  unfold RecipeViewSet.get_queryset. split.
  - intros a -> Hne ->. by rewrite bool_decide_eq_true_2.
  - intros qs (base & Hbase & Hqs)%bind_Ok.
    assert ((∀ r, r ∈ base ↔
               r ∈ tbl_recipe st ∧
               (∀ a, qp_author request = Some a → a ≠ "" → int a = Some (rec_author r))) ∧
            sublist base (tbl_recipe st)) as [Hb Hbsub].
    { destruct (qp_author request) as [a|]; [|injection Hbase as <-].
      - case_bool_decide as Ha; [|injection Hbase as <-].
        + destruct (int a) as [n|] eqn:Hn; [|done]. injection Hbase as <-.
          split; [|apply sublist_filter]. intros r. rewrite list_elem_of_filter.
          split.
          * intros [Hr Hin]. split; [done|]. intros a' [= <-] _. by rewrite Hn, Hr.
          * intros [Hin Hr]. split; [|done]. specialize (Hr a eq_refl Ha). congruence.
        + split; [|done]. intros r. split; [|by intros [? _]].
          intros Hin. split; [done|]. by intros a' [= <-] ?.
      - split; [|done]. intros r. split; [|by intros [? _]]. by intros Hin. }
    assert (∀ r, (r ∈ tbl_recipe st ∧
                  (∀ a, qp_author request = Some a → a ≠ "" →
                        int a = Some (rec_author r))) →
                 (∀ u v, user request = Some u → qp_favorited request = Some v →
                         v ≠ "" → favorited_by st u r) →
                 r ∈ tbl_recipe st ∧
                 (∀ a, qp_author request = Some a → a ≠ "" →
                       int a = Some (rec_author r)) ∧
                 (∀ u v, user request = Some u → qp_favorited request = Some v →
                         v ≠ "" → favorited_by st u r)) as Hjoin
      by (by intros r [? ?] ?).
    destruct (qp_favorited request) as [v|] eqn:Hv, (user request) as [u|] eqn:Hu.
    + case_bool_decide as Hne; injection Hqs as <-.
      * split.
        -- intros r. rewrite filter_favorites_user_elem, Hb. unfold favorited_by. split.
           ++ intros [Hin Hf]. apply Hjoin; [done|]. by intros u' v' [= <-] _ _.
           ++ intros (Hin & Ha & Hf). split; [done|]. by apply (Hf u v).
        -- intros Huniq. rewrite filter_favorites_user_unique by done.
           etrans; [apply sublist_filter | done].
      * split; [|done]. intros r. rewrite Hb. split; [|by intros (? & ? & _)].
        intros Hin. apply Hjoin; [done|]. by intros u' v' _ [= <-] ?.
    + injection Hqs as <-. split; [|done]. intros r. rewrite Hb.
      split; [|by intros (? & ? & _)]. intros Hin. by apply Hjoin.
    + injection Hqs as <-. split; [|done]. intros r. rewrite Hb.
      split; [|by intros (? & ? & _)]. intros Hin. by apply Hjoin.
    + injection Hqs as <-. split; [|done]. intros r. rewrite Hb.
      split; [|by intros (? & ? & _)]. intros Hin. by apply Hjoin.
Qed.

(** X20. Object lookup.  A recipe that [get_object] returns is stored and
    has the requested key; when no stored recipe has the key and the
    listing can be built, the lookup fails as not found; and when the keys
    of the recipes are distinct and the Favorite table has one row per
    (user, recipe), the lookup never finds several objects. *)
Theorem object_lookup (st : Store) (request : Request) (pk : Z) :
  (∀ recipe, RecipeViewSet.get_object int st request pk = Ok recipe →
             rec_id recipe = pk ∧ recipe ∈ tbl_recipe st) ∧
  (∀ qs, RecipeViewSet.get_queryset int st request = Ok qs →
         (∀ r, r ∈ tbl_recipe st → rec_id r ≠ pk) →
         RecipeViewSet.get_object int st request pk = Raise Http404) ∧
  (NoDup (rec_id <$> tbl_recipe st) → unique_favorites st →
   RecipeViewSet.get_object int st request pk ≠ Raise MultipleObjectsReturned).
Proof.
  unfold RecipeViewSet.get_object. split; [|split].
  - intros recipe (qs & Hqs & Hget)%bind_Ok.
    destruct (filter _ qs) as [|r [|r' rs]] eqn:E; try done. injection Hget as ->.
    assert (recipe ∈ filter (λ r, rec_id r = pk) qs) as [Hpk Hin]%list_elem_of_filter
      by (rewrite E; left).
    split; [done|]. by apply (get_queryset_stored int st request qs).
  - intros qs Hqs Hnone. rewrite Hqs. cbn [bind].
    rewrite filter_none; [done|]. intros r Hr Hpk.
    apply (get_queryset_stored int st request qs) in Hr; [|done]. by apply (Hnone r).
  - intros Hnd Huniq.
    destruct (RecipeViewSet.get_queryset int st request) as [qs|e] eqn:Hqs.
    + cbn [bind].
      pose proof (get_queryset_sublist st request qs Hqs Huniq) as Hsub.
      apply (sublist_filter_mono (λ r, rec_id r = pk)) in Hsub.
      apply sublist_length in Hsub.
      pose proof (filter_unique rec_id pk (tbl_recipe st) Hnd) as Hlen.
      destruct (filter _ qs) as [|r [|r' rs]]; [done|done|]. simpl in Hsub. lia.
    + cbn [bind]. intros [= ->]. revert Hqs. unfold RecipeViewSet.get_queryset.
      destruct (qp_author request) as [a|]; cbn [bind].
      * case_bool_decide; cbn [bind].
        -- destruct (int a); cbn [bind]; [|done].
           destruct (qp_favorited request), (user request); try done. by case_bool_decide.
        -- destruct (qp_favorited request), (user request); try done. by case_bool_decide.
      * destruct (qp_favorited request), (user request); try done. by case_bool_decide.
Qed.

End listing.

Lemma recipe_listing_witness :
  RecipeViewSet.get_queryset (λ _, None) sample
    {| user := Some 7; qp_author := Some "x"; qp_favorited := None |} = Raise ValueError ∧
  (unique_favorites sample →
   sublist [R1; R2] (tbl_recipe sample)).
Proof.
  split.
  - apply (proj1 (recipe_listing (λ _, None) sample
                    {| user := Some 7; qp_author := Some "x"; qp_favorited := None |}) "x");
      [reflexivity | discriminate | reflexivity].
  - apply (proj2 (proj2 (recipe_listing (λ _, None) sample
                           (with_favorited (as_user 7) (Some "1"))) [R1; R2]
                    ltac:(by vm_compute))).
Defined.

Lemma object_lookup_witness :
  RecipeViewSet.get_object (λ _, None) sample (as_user 7) 9 = Raise Http404 ∧
  RecipeViewSet.get_object (λ _, None) sample (as_user 7) 1 ≠ Raise MultipleObjectsReturned.
Proof.
  split.
  - apply (proj1 (proj2 (object_lookup (λ _, None) sample (as_user 7) 9))
             [R1; R2; R3]); [by vm_compute|].
    intros r Hr. apply (bool_decide_pack _) in Hr. intros Hpk.
    assert (bool_decide (Exists (λ r, rec_id r = 9) (tbl_recipe sample))) as H.
    { apply bool_decide_pack, Exists_exists. exists r.
      split; [by apply (bool_decide_unpack _) | done]. }
    by vm_compute in H.
  - apply (proj2 (proj2 (object_lookup (λ _, None) sample (as_user 7) 1))).
    + apply (bool_decide_unpack _). by vm_compute.
    + apply sample_unique_favorites.
Defined.
